(** * GameNative: build resolution, secure-link retry and manifest format detection

    A shallow embedding of the Python sources

    - [gogdl/api.py]                   ([ApiHandler.get_secure_link],
                                        [ApiHandler.get_user_data],
                                        [ApiHandler.does_user_own]),
    - [gogdl/dl/managers/manager.py]   ([AndroidManager.__init__], [get_builds],
                                        [setup_download_manager], [download]),
    - [androidTest/assets/manifest_test_python.py] ([parse_and_serialize]),

    and the properties of them that the specification states.

    Conventions.  Python values that come out of [json.load] / [response.json()]
    are the inductive [pyval]; dictionaries are [gmap string pyval].  A Python
    call that may raise is a [result]; code that mutates [self] or talks to the
    network threads its state explicitly.  Everything the code reaches for outside
    the repository (the HTTP session, the file system, the [gogdl.constants]
    module, the builtins [str] and [int] on strings, the manifest decoders of
    [legendary.models]) is an explicit parameter. *)

From Stdlib Require Import ZArith QArith Qpower String Ascii List Lia Lqa.
From Stdlib.Strings Require Import Byte.
From stdpp Require Import base option list gmap strings pretty.
From Equations Require Import Equations.

Close Scope Q_scope.
Local Open Scope string_scope.
Local Open Scope list_scope.
Local Open Scope Z_scope.

Set Warnings "-register-all".

(* ===================================================================== *)
(** * Python values, exceptions and the builtins the code uses            *)
(* ===================================================================== *)

Module Py.

(** JSON-shaped Python values.  Floats are not represented. *)
Inductive pyval :=
  | PNone
  | PBool (b : bool)
  | PInt (z : Z)
  | PStr (s : string)
  | PList (l : list pyval)
  | PDict (d : gmap string pyval).

(** The exceptions that occur.  [SystemExit] (raised by [exit(1)]) is the only
    one that is not a subclass of [Exception]. *)
Inductive exn :=
  | KeyError (key : string)
  | TypeError
  | AttributeError
  | ValueError
  | OverflowError
  | IOError
  | JSONDecodeError
  | RequestException
  | UnsupportedPlatform
  | Exception (msg : string)
  | SystemExit (code : Z).

(** [isinstance(e, Exception)]: what an [except Exception] clause catches. *)
Definition is_Exception (e : exn) : bool :=
  match e with
  | SystemExit _ => false
  | _ => true
  end.

Inductive result (A : Type) :=
  | Ok (a : A)
  | Raise (e : exn).
Arguments Ok {A} a.
Arguments Raise {A} e.

(** Sequencing: the first exception raised aborts what follows.  With these
    instances [x ← e; k] reads "evaluate [e], bind its value to [x], go on". *)
#[global] Instance result_ret : MRet result := fun A a => Ok a.
#[global] Instance result_bind : MBind result := fun A B k r =>
  match r with
  | Ok a => k a
  | Raise e => Raise e
  end.

(** Truth value of an object ([if v:], [not v], [a and b]). *)
Definition truthy (v : pyval) : bool :=
  match v with
  | PNone => false
  | PBool b => b
  | PInt z => negb (z =? 0)
  | PStr s => negb (String.eqb s "")
  | PList l => match l with [] => false | _ => true end
  | PDict d => negb (bool_decide (d = ∅))
  end.

(** Truth value of an attribute that is [None] or a [str]. *)
Definition truthy_str (o : option string) : bool :=
  match o with
  | None => false
  | Some s => negb (String.eqb s "")
  end.

(** [v == None]. *)
Definition eq_None (v : pyval) : bool :=
  match v with
  | PNone => true
  | _ => false
  end.

(** [v == s] for a [str] [s]. *)
Definition eq_str (v : pyval) (s : string) : bool :=
  match v with
  | PStr s' => String.eqb s' s
  | _ => false
  end.

(** [v == o] where [o] is [None] or a [str]. *)
Definition eq_optstr (v : pyval) (o : option string) : bool :=
  match o with
  | None => eq_None v
  | Some s => eq_str v s
  end.

(** [v == n] for an [int] [n]; [True] and [False] compare as [1] and [0]. *)
Definition eq_int (v : pyval) (n : Z) : bool :=
  match v with
  | PInt z => z =? n
  | PBool b => Z.b2z b =? n
  | _ => false
  end.

(** [v[k]] for a [str] key [k]. *)
Definition getitem (v : pyval) (k : string) : result pyval :=
  match v with
  | PDict d =>
      match d !! k with
      | Some x => Ok x
      | None => Raise (KeyError k)
      end
  | _ => Raise TypeError
  end.

(** [v.get(k, default)]: only dictionaries have the method. *)
Definition get (v : pyval) (k : string) (dflt : pyval) : result pyval :=
  match v with
  | PDict d => Ok (default dflt (d !! k))
  | _ => Raise AttributeError
  end.

(** [len(v)]. *)
Definition len (v : pyval) : result Z :=
  match v with
  | PStr s => Ok (Z.of_nat (String.length s))
  | PList l => Ok (Z.of_nat (length l))
  | PDict d => Ok (Z.of_nat (size d))
  | _ => Raise TypeError
  end.

(** The characters of a string, each as a one-character [str]. *)
Fixpoint chars (s : string) : list pyval :=
  match s with
  | EmptyString => []
  | String c s' => PStr (String c EmptyString) :: chars s'
  end.

(** What [for x in v] ranges over.  A dictionary yields its keys; [gmap] does
    not record insertion order, so they come in the map's own order. *)
Definition iter (v : pyval) : result (list pyval) :=
  match v with
  | PStr s => Ok (chars s)
  | PList l => Ok l
  | PDict d => Ok (PStr <$> (map_to_list d).*1)
  | _ => Raise TypeError
  end.

(** [v[0]]. *)
Definition getitem0 (v : pyval) : result pyval :=
  match v with
  | PStr s =>
      match chars s with
      | c :: _ => Ok c
      | [] => Raise (Exception "IndexError")
      end
  | PList l =>
      match l with
      | x :: _ => Ok x
      | [] => Raise (Exception "IndexError")
      end
  | PDict d => Raise (KeyError "0")
  | _ => Raise TypeError
  end.

(** [k in v] for a [str] [k]: key of a dictionary, element of a list,
    substring of a string. *)
Fixpoint is_substring (k s : string) : bool :=
  String.prefix k s ||
  match s with
  | EmptyString => false
  | String _ s' => is_substring k s'
  end.

Definition contains (v : pyval) (k : string) : result bool :=
  match v with
  | PDict d => Ok (bool_decide (is_Some (d !! k)))
  | PList l => Ok (existsb (fun x => eq_str x k) l)
  | PStr s => Ok (is_substring k s)
  | _ => Raise TypeError
  end.

(** The two builtins whose full definition is not needed: [str(v)], which
    never raises on these values, and [int(s)] on a string ([None] when it
    raises [ValueError]). *)
Class builtins := {
  str : pyval -> string;
  int_of_str : string -> option Z
}.

(** [int(v)]. *)
Definition int `{!builtins} (v : pyval) : result Z :=
  match v with
  | PInt z => Ok z
  | PBool b => Ok (Z.b2z b)
  | PStr s =>
      match int_of_str s with
      | Some z => Ok z
      | None => Raise ValueError
      end
  | _ => Raise TypeError
  end.

(** [posixpath.join(a, b)]. *)
Definition os_path_join (a b : string) : string :=
  if String.prefix "/" b then b
  else if String.eqb a "" then b
  else if String.eqb (String.substring (String.length a - 1) 1 a) "/" then a +:+ b
  else a +:+ "/" +:+ b.

End Py.

(* ===================================================================== *)
(** * gogdl/api.py                                                        *)
(* ===================================================================== *)

Module Api.
Import Py.

(** The module [gogdl.constants] is not in the source tree; the values the code
    reads from it are fields of this class. *)
Class constants := {
  GOG_CONTENT_SYSTEM : string;
  GOG_EMBED : string;
  MANIFESTS_DIR : string
}.

(** What the code reads of a [requests.Response]: the attributes [status_code]
    and [ok], and the outcome of calling [json()]. *)
Record response := {
  status_code : Z;
  ok : bool;
  json : result pyval
}.

Inductive level := DEBUG | INFO | WARNING | ERROR.

(** The observable actions of the API handler, in the order they happen. *)
Inductive event :=
  | Request (url : string)
  | Sleep (seconds : Q)
  | Log (lv : level).

Definition is_Request (e : event) : bool :=
  match e with
  | Request _ => true
  | _ => false
  end.

(** Number of HTTP requests issued in a trace. *)
Definition issued (tr : list event) : nat := length (filter is_Request tr).

(** The remote side: what the [n]-th request of a run (counting from 0), sent
    to [url], comes back with; it either raises or returns a response. *)
Definition network := nat -> string -> result response.

Section ApiHandler.
Context `{!constants}.
Variable net : network.

(** [ApiHandler.get_authenticated_request]: [self.session.get(url)]. *)
Definition get_authenticated_request (url : string) (tr : list event)
  : result response * list event :=
  (net (issued tr) url, tr ++ [Request url]).

(** The URL that [get_secure_link] builds (lines 153-160). *)
Definition secure_link_url (product_id path : string) (generation : Z)
    (root : option string) : string :=
  let url := "" in
  let url :=
    if generation =? 2 then
      GOG_CONTENT_SYSTEM +:+ "/products/" +:+ product_id
        +:+ "/secure_link?_version=2&generation=2&path=" +:+ path
    else if generation =? 1 then
      GOG_CONTENT_SYSTEM +:+ "/products/" +:+ product_id
        +:+ "/secure_link?_version=2&type=depot&path=" +:+ path
    else url in
  match root with
  | Some r => if truthy_str root then url +:+ "&root=" +:+ r else url
  | None => url
  end.

(** The number that [0.2 * (2 ** attempt)] denotes, in seconds.  Time is
    rational here: the literal [0.2] is the number 2/10.  (The float that
    Python computes is the binary64 number nearest to 0.2, scaled by the
    power of two; for [0 <= attempt < 1024] the scaling is exact, so the
    two differ by the rounding of the literal, less than one part in
    10^16.  For a negative [attempt] the power is a float itself, and far
    enough below zero the product rounds again or underflows to 0.) *)
Definition backoff (attempt : Z) : Q := (0.2 * 2 ^ attempt)%Q.

(** [sleep_time = 0.2 * (2 ** attempt)] (lines 170 and 181).  For
    [attempt >= 0] the power is an [int], which the product converts to a
    float: from [2 ** 1024] on that conversion raises [OverflowError]. *)
Definition sleep_time (attempt : Z) : result Q :=
  if 1024 <=? attempt then Raise OverflowError else Ok (backoff attempt).

(** [time.sleep(seconds)].  The argument is converted to a signed 64-bit
    count of nanoseconds; a value outside that range raises
    [OverflowError], a negative one [ValueError].  (Signals that arrive
    during the sleep are not represented.) *)
Definition time_sleep (seconds : Q) : result unit :=
  let nanoseconds := (seconds * 1000000000)%Q in
  if Qle_bool (inject_Z (2 ^ 63)) nanoseconds
     || negb (Qle_bool (inject_Z (- 2 ^ 63)) nanoseconds)
  then Raise OverflowError
  else if negb (Qle_bool 0 seconds) then Raise ValueError
  else Ok ().

(** The two lines [sleep_time = 0.2 * (2 ** attempt)] and
    [time.sleep(sleep_time)]: the sleep is in the trace when both have
    returned. *)
Definition sleep_backoff (attempt : Z) (tr : list event)
  : result unit * list event :=
  match sleep_time attempt with
  | Raise e => (Raise e, tr)
  | Ok sleep_time =>
      match time_sleep sleep_time with
      | Raise e => (Raise e, tr)
      | Ok _ => (Ok (), tr ++ [Sleep sleep_time])
      end
  end.

(** [ApiHandler.get_secure_link] (lines 135-183).  The recursion is the
    source's own: each call either returns or calls itself with [attempt + 1],
    so [max_retries - attempt] decreases.  The sleep and the call on lines
    170-172 sit inside the [try] block, so that an [Exception] they raise is
    handled on line 176; those on lines 181-183 sit inside the [except]
    handler, so that what they raise leaves the call. *)
Equations? get_secure_link (product_id path : string) (generation : Z)
    (root : option string) (attempt max_retries : Z) (tr : list event)
  : result pyval * list event by wf (Z.to_nat (max_retries - attempt)) lt :=
get_secure_link product_id path generation root attempt max_retries tr
  with Z_ge_dec attempt max_retries := {
  | left _ => (Ok (PList []), tr ++ [Log ERROR])
  | right _ =>
      let url := secure_link_url product_id path generation root in
      let try_block :=
        match get_authenticated_request url tr with
        | (Ok response, tr1) =>
            if negb (status_code response =? 200) then
              let tr2 := tr1 ++ [Log WARNING] in
              match sleep_backoff attempt tr2 with
              | (Ok _, tr3) =>
                  get_secure_link product_id path generation root
                    (attempt + 1) max_retries tr3
              | (Raise e, tr3) => (Raise e, tr3)
              end
            else
              (j ← json response; get j "urls" (PList []), tr1)
        | (Raise e, tr1) => (Raise e, tr1)
        end in
      match try_block with
      | (Raise e, tr1) =>
          if is_Exception e then
            let tr2 := tr1 ++ [Log ERROR] in
            match sleep_backoff attempt tr2 with
            | (Ok _, tr3) =>
                get_secure_link product_id path generation root
                  (attempt + 1) max_retries tr3
            | (Raise e, tr3) => (Raise e, tr3)
            end
          else (Raise e, tr1)
      | (Ok urls, tr1) => (Ok urls, tr1)
      end
  }.
Proof. all: lia. Qed.

(** [self.auth_manager.get_credentials()]: the credential store is outside the
    source tree; this is what the call comes back with. *)
Variable credentials : result pyval.

(** [ApiHandler._update_auth_header] (lines 26-37).  The header it writes is
    not read back by the code below; what remains is whether it raises and
    what it logs.  [token[:20]] needs a sliceable token. *)
Definition _update_auth_header (tr : list event) : result unit * list event :=
  match credentials with
  | Raise e => (Raise e, tr)
  | Ok credentials =>
      if truthy credentials then
        match get credentials "access_token" PNone with
        | Raise e => (Raise e, tr)
        | Ok token =>
            if truthy token then
              match token with
              | PStr _ | PList _ => (Ok (), tr ++ [Log DEBUG])
              | _ => (Raise TypeError, tr)
              end
            else (Ok (), tr ++ [Log WARNING])
        end
      else (Ok (), tr ++ [Log WARNING])
  end.

(** [ApiHandler.get_user_data] (lines 63-78).  [list(data.keys())] in the debug
    message needs [data] to be a dictionary. *)
Definition get_user_data (tr : list event) : result pyval * list event :=
  match _update_auth_header tr with
  | (Raise e, tr) => (Raise e, tr)
  | (Ok _, tr) =>
      let url := GOG_EMBED +:+ "/user/data/games" in
      let tr := tr ++ [Log INFO] in
      match get_authenticated_request url tr with
      | (Raise e, tr) => (Raise e, tr)
      | (Ok response, tr) =>
          let tr := tr ++ [Log DEBUG] in
          if ok response then
            match json response with
            | Raise e => (Raise e, tr)
            | Ok data =>
                match data with
                | PDict _ => (Ok data, tr ++ [Log DEBUG])
                | _ => (Raise AttributeError, tr)
                end
            end
          else (Ok PNone, tr ++ [Log ERROR])
      end
  end.

Context `{!builtins}.

(** [ApiHandler.does_user_own] (lines 100-123), on the attribute [self.owned].
    Inside the [try] the function either returns ([Some b]) or falls through to
    the last line ([None]). *)
Definition does_user_own (game_id : pyval) (owned : list pyval)
    (tr : list event) : result bool * list pyval * list event :=
  if truthy (PList owned) then
    (Ok (bool_decide (str game_id ∈ str <$> owned)), owned, tr)
  else
    let try_block : result (option bool) * list pyval * list event :=
      match get_user_data tr with
      | (Raise e, tr1) => (Raise e, owned, tr1)
      | (Ok user_data, tr1) =>
          match (if truthy user_data then contains user_data "owned"
                 else Ok false) with
          | Raise e => (Raise e, owned, tr1)
          | Ok true =>
              match (o ← getitem user_data "owned"; iter o) with
              | Raise e => (Raise e, owned, tr1)
              | Ok gs =>
                  let owned := (fun g => PStr (str g)) <$> gs in
                  (Ok (Some (existsb (fun x => eq_str x (str game_id)) owned)),
                   owned, tr1)
              end
          | Ok false => (Ok None, owned, tr1)
          end
      end in
    match try_block with
    | (Ok (Some b), owned, tr1) => (Ok b, owned, tr1)
    | (Ok None, owned, tr1) => (Ok true, owned, tr1)
    | (Raise e, owned, tr1) =>
        if is_Exception e then (Ok true, owned, tr1 ++ [Log WARNING])
        else (Raise e, owned, tr1)
    end.

End ApiHandler.
End Api.

(* ===================================================================== *)
(** * gogdl/dl/managers/manager.py                                        *)
(* ===================================================================== *)

(** The parsed command line ([gogdl/args.py]) as far as the manager reads it.
    [None] is Python's [None]; for [workers_count] it stands for a namespace
    without that attribute (the [repair] parser defines none). *)
Module Args.
Record t := {
  command : string;
  platform : string;
  id : string;
  branch : option string;
  build : option string;
  password : option string;
  force_generation : option string;
  workers_count : option Z
}.
End Args.

Module Manager.
Import Py Api.

(** The download managers the code constructs, named by the expression that
    constructs them.  ([linux.Manager] is [v2.Manager] under the name that
    [linux.py] imports it by.) *)
Inductive manager :=
  | linux_Manager
  | linux_LinuxManager
  | v1_Manager
  | v2_Manager.

(** The attributes of an [AndroidManager] instance; the last three are unset
    ([None]) until a method assigns them. *)
Record AndroidManager := {
  arguments : Args.t;
  platform : string;
  should_append_folder_name : bool;
  is_verifying : bool;
  game_id : string;
  branch : option string;
  allowed_threads : Z;
  builds : option pyval;
  target_build : option pyval;
  download_manager : option manager
}.

Definition set_builds (v : pyval) (self : AndroidManager) : AndroidManager :=
  {| arguments := arguments self; platform := platform self;
     should_append_folder_name := should_append_folder_name self;
     is_verifying := is_verifying self; game_id := game_id self;
     branch := branch self; allowed_threads := allowed_threads self;
     builds := Some v; target_build := target_build self;
     download_manager := download_manager self |}.

Definition set_target_build (v : pyval) (self : AndroidManager) : AndroidManager :=
  {| arguments := arguments self; platform := platform self;
     should_append_folder_name := should_append_folder_name self;
     is_verifying := is_verifying self; game_id := game_id self;
     branch := branch self; allowed_threads := allowed_threads self;
     builds := builds self; target_build := Some v;
     download_manager := download_manager self |}.

Definition set_download_manager (m : manager) (self : AndroidManager)
  : AndroidManager :=
  {| arguments := arguments self; platform := platform self;
     should_append_folder_name := should_append_folder_name self;
     is_verifying := is_verifying self; game_id := game_id self;
     branch := branch self; allowed_threads := allowed_threads self;
     builds := builds self; target_build := target_build self;
     download_manager := Some m |}.

(** [AndroidManager.__init__] (lines 23-40). *)
Definition __init__ (arguments : Args.t) : AndroidManager :=
  {| arguments := arguments;
     platform := Args.platform arguments;
     should_append_folder_name := String.eqb (Args.command arguments) "download";
     is_verifying := String.eqb (Args.command arguments) "repair";
     game_id := Args.id arguments;
     branch := Args.branch arguments;
     allowed_threads :=
       match Args.workers_count arguments with
       | Some n => Z.min n 4
       | None => 2
       end;
     builds := None;
     target_build := None;
     download_manager := None |}.

(** What the manager touches outside itself. *)
Record world := {
  (** [self.api_handler.session.get(url)] *)
  session_get : string -> result response;
  (** the files on disk: a path that exists is mapped to what
      [json.load(open(path))] comes back with *)
  files : gmap string (result pyval);
  (** [manager.download()] of a download manager constructed from [self].
      The managers are outside the source tree: what their [download] comes
      back with may depend on which manager it is, on the attributes of
      [self] it was constructed from and on the files on disk. *)
  run_download : manager -> AndroidManager -> gmap string (result pyval)
                 -> result unit
}.

(** A method body: it runs on [self], may assign attributes, and returns or
    raises.  Attributes assigned before an exception stay assigned. *)
Definition M (A : Type) : Type := AndroidManager -> AndroidManager * result A.

#[global] Instance M_ret : MRet M := fun A a self => (self, Ok a).
#[global] Instance M_bind : MBind M := fun A B k m self =>
  match m self with
  | (self', Ok a) => k a self'
  | (self', Raise e) => (self', Raise e)
  end.

Definition lift {A} (r : result A) : M A := fun self => (self, r).
Definition raise {A} (e : exn) : M A := lift (Raise e).
Definition exit {A} (code : Z) : M A := raise (SystemExit code).
Definition attr {A} (f : AndroidManager -> A) : M A := fun self => (self, Ok (f self)).
Definition assign (f : AndroidManager -> AndroidManager) : M unit :=
  fun self => (f self, Ok ()).

(** [try: body except E: handler], for the exceptions selected by [catches]. *)
Definition try_except {A} (body : M A) (catches : exn -> bool)
    (handler : exn -> M A) : M A := fun self =>
  match body self with
  | (self', Raise e) => if catches e then handler e self' else (self', Raise e)
  | r => r
  end.

(** [for build in items: if test(build): <found>; break]: the first element
    that passes the test, if the tests before it did not raise. *)
Fixpoint first_match (test : pyval -> result bool) (items : list pyval)
  : result (option pyval) :=
  match items with
  | [] => Ok None
  | build :: rest =>
      b ← test build;
      if b : bool then Ok (Some build) else first_match test rest
  end.

(** The conditions of the three selection loops of [setup_download_manager]:
    [build["branch"] == None] (line 133), [build["branch"] == self.branch]
    (line 138) and [build["build_id"] == self.arguments.build] (line 145). *)
Definition is_default_branch (build : pyval) : result bool :=
  b ← getitem build "branch"; mret (eq_None b).
Definition on_branch (branch : option string) (build : pyval) : result bool :=
  b ← getitem build "branch"; mret (eq_optstr b branch).
Definition has_build_id (id : option string) (build : pyval) : result bool :=
  b ← getitem build "build_id"; mret (eq_optstr b id).

(** The conditions of the two loops of [download] (lines 63 and 70), which
    read the build with [.get]. *)
Definition on_branch_get (branch : option string) (build : pyval) : result bool :=
  b ← get build "branch" PNone; mret (eq_optstr b branch).
Definition has_build_id_get (id : option string) (build : pyval) : result bool :=
  b ← get build "build_id" PNone; mret (eq_optstr b id).

Section AndroidManager.
Context `{!constants} `{!builtins}.
Variable w : world.

(** [AndroidManager.get_builds] (lines 187-202). *)
Definition get_builds (self : AndroidManager) (build_platform : string)
  : result pyval :=
  let password_arg := Args.password (arguments self) in
  let password :=
    if negb (truthy_str password_arg) then ""
    else "&password=" +:+ default "" password_arg in
  let generation :=
    if truthy_str (Args.force_generation (arguments self))
    then default "" (Args.force_generation (arguments self))
    else "2" in
  response ← session_get w
    (GOG_CONTENT_SYSTEM +:+ "/products/" +:+ game_id self +:+ "/os/"
       +:+ build_platform +:+ "/builds?&generation=" +:+ generation
       +:+ password);
  if negb (ok response) then Raise UnsupportedPlatform
  else
    data ← json response;
    total_count ← getitem data "total_count";
    if eq_int total_count 0 then Raise UnsupportedPlatform
    else Ok data.

(** [self.builds = self.get_builds(self.platform)]. *)
Definition fetch_builds : M unit := fun self =>
  match get_builds self (platform self) with
  | Ok data => (set_builds data self, Ok ())
  | Raise e => (self, Raise e)
  end.

(** [self.builds["items"]]. *)
Definition builds_items : M pyval := fun self =>
  match builds self with
  | Some data => (self, getitem data "items")
  | None => (self, Raise AttributeError)
  end.

(** [self.target_build[key]]. *)
Definition target_build_item (key : string) : M pyval := fun self =>
  match target_build self with
  | Some build => (self, getitem build key)
  | None => (self, Raise AttributeError)
  end.

(** One selection loop of [setup_download_manager]:
    [for build in self.builds["items"]: if test(build): self.target_build = build; break]. *)
Definition for_build_in_items (test : pyval -> result bool) : M unit :=
  items ← builds_items;
  found ← lift (l ← iter items; first_match test l);
  match found with
  | Some build => assign (set_target_build build)
  | None => mret ()
  end.

(** Lines 101-148 of [setup_download_manager]: fetch the builds and select
    [self.target_build].  The value is [false] when the method has returned
    already (Linux) and [true] when it goes on to line 150. *)
Definition select_target_build : M bool :=
  p ← attr platform;
  if String.eqb p "linux" then
    assign (set_download_manager linux_Manager);; mret false
  else
    go_on ← try_except
      (fetch_builds;; mret true)
      (fun e => match e with UnsupportedPlatform => true | _ => false end)
      (fun _ =>
         p ← attr platform;
         if String.eqb p "linux"
         then assign (set_download_manager linux_Manager);; mret false
         else exit 1);
    if go_on : bool then
      items ← builds_items;
      n ← lift (len items);
      if n =? 0 then exit 1
      else
        items ← builds_items;
        first ← lift (getitem0 items);
        assign (set_target_build first);;
        for_build_in_items is_default_branch;;
        branch ← attr branch;
        for_build_in_items (on_branch branch);;
        args ← attr arguments;
        (if truthy_str (Args.build args) then
           for_build_in_items (has_build_id (Args.build args))
         else mret ());;
        mret true
    else mret false.

(** Lines 152-157: what [generation] is after the [if self.is_verifying]
    block.  When verifying and a manifest is on disk for this game it is
    [int(manifest_data['version'])]. *)
Definition cached_generation (self : AndroidManager) (generation : pyval)
  : result pyval :=
  if is_verifying self then
    let manifest_path := os_path_join MANIFESTS_DIR (game_id self) in
    match files w !! manifest_path with
    | Some content =>
        manifest_data ← content;
        version ← getitem manifest_data "version";
        n ← int version;
        mret (PInt n)
    | None => mret generation
    end
  else mret generation.

(** Lines 150-169 of [setup_download_manager]: from the selected build to the
    download manager. *)
Definition select_download_manager : M unit :=
  generation ← target_build_item "generation";
  generation ← (fun self => (self, cached_generation self generation));
  if negb (eq_int generation 1 || eq_int generation 2) then
    raise (Exception "Unsupported depot version please report this")
  else if eq_int generation 1 then
    assign (set_download_manager v1_Manager)
  else if eq_int generation 2 then
    assign (set_download_manager v2_Manager)
  else mret ().

(** [AndroidManager.setup_download_manager] (lines 97-169). *)
Definition setup_download_manager : M unit :=
  go_on ← select_target_build;
  if go_on : bool then select_download_manager else mret ().

(** [manager.download()] for the manager [manager] constructed from [self]. *)
Definition manager_download (manager : manager) : M unit := fun self =>
  (self, run_download w manager self (files w)).

(** [AndroidManager.download] (lines 42-95).  [target_build] is a local
    variable here until line 76 stores it. *)
Definition download : M unit :=
  try_except
    (p ← attr platform;
     if String.eqb p "linux" then manager_download linux_LinuxManager
     else
       builds ← (fun self => (self, get_builds self (platform self)));
       none ← lift (if negb (truthy builds) then mret true
                    else items ← getitem builds "items";
                         n ← len items;
                         mret (n =? 0));
       if none : bool then raise (Exception "No builds found")
       else
         items ← lift (getitem builds "items");
         target_build ← lift (getitem0 items);
         branch ← attr branch;
         found ← lift (l ← iter items;
                       first_match (on_branch_get branch) l);
         let target_build := default target_build found in
         args ← attr arguments;
         found ← lift (if truthy_str (Args.build args) then
                         l ← iter items;
                         first_match (has_build_id_get (Args.build args)) l
                       else mret None);
         let target_build := default target_build found in
         assign (set_builds builds);;
         assign (set_target_build target_build);;
         generation ← lift (get target_build "generation" (PInt 2));
         manager ← (if eq_int generation 1 then mret v1_Manager
                    else if eq_int generation 2 then mret v2_Manager
                    else raise (Exception
                           ("Unsupported generation: " +:+ str generation)));
         manager_download manager)
    is_Exception
    (fun e => raise e).

End AndroidManager.
End Manager.

(* ===================================================================== *)
(** * androidTest/assets/manifest_test_python.py                          *)
(* ===================================================================== *)

Module ManifestTest.
Import Py.

#[global] Instance byte_eq_dec : EqDecision byte := Byte.byte_eq_dec.

(** The literal [b'\x0c\xc0\xbe\x44'] of line 168, byte by byte. *)
Definition magic : list byte := [x0c; xc0; xbe; x44].

(** The two decoders of [legendary.models] that line 169 and line 171 call. *)
Inductive decoder :=
  | Manifest_read_all
  | JSONManifest_read_all.

(** The test of line 168, [data[:4] == b'\x0c\xc0\xbe\x44'], and the decoder
    each branch calls. *)
Definition detect (data : list byte) : decoder :=
  if bool_decide (take 4 data = magic) then Manifest_read_all
  else JSONManifest_read_all.

Section parse.
(** [legendary.models] is outside the source tree: the decoded manifest is an
    abstract type and the decoders are given.  The two renderers of lines
    26-159 only read attributes of that object and are taken the same way. *)
Variable manifest : Type.
Variable read_all : decoder -> list byte -> result manifest.
Variable create_manifest_summary : manifest -> result pyval.
Variable serialize_manifest : manifest -> result pyval.
(** [open(manifest_path, 'rb').read()] *)
Variable read_file : string -> result (list byte).

(** [parse_and_serialize] (lines 162-176). *)
Definition parse_and_serialize (manifest_path output_format : string)
  : result pyval :=
  data ← read_file manifest_path;
  manifest ← read_all (detect data) data;
  if String.eqb output_format "summary" then create_manifest_summary manifest
  else serialize_manifest manifest.

End parse.

(** Little-endian reading and writing of a 32-bit value. *)
Definition byte_of_Z (z : Z) : byte :=
  default x00 (Byte.of_N (Z.to_N (z mod 256))).

Definition Z_of_byte (b : byte) : Z := Z.of_N (Byte.to_N b).

Definition le32_encode (v : Z) : list byte :=
  [byte_of_Z v; byte_of_Z (Z.shiftr v 8); byte_of_Z (Z.shiftr v 16);
   byte_of_Z (Z.shiftr v 24)].

Fixpoint le_decode (bs : list byte) : Z :=
  match bs with
  | [] => 0
  | b :: rest => Z.lor (Z_of_byte b) (Z.shiftl (le_decode rest) 8)
  end.

End ManifestTest.

(* ===================================================================== *)
(** * manifest_test_python.py: the renderers                              *)
(* ===================================================================== *)

(** The objects of [legendary.models] as the renderers read them.  An
    attribute that is only copied into the output is a [pyval]; one that is
    summed is an integer; one that goes through [bytes_to_hex] is [bytes] or
    [None]; one that is iterated is a list.  An optional part of a manifest
    is [None] here when the attribute is [None] or otherwise false: every
    use of it is guarded by [... if part else ...]. *)
Module ChunkInfo.
Record t := {
  guid : list Py.pyval;
  guid_str : Py.pyval;
  hash : Py.pyval;
  sha_hash : option (list byte);
  group_num : Py.pyval;
  window_size : Py.pyval;
  file_size : Z
}.
End ChunkInfo.

Module ChunkPart.
Record t := {
  guid : list Py.pyval;
  guid_str : Py.pyval;
  offset : Py.pyval;
  size : Py.pyval;
  file_offset : Py.pyval
}.
End ChunkPart.

Module FileManifest.
Record t := {
  filename : Py.pyval;
  symlink_target : Py.pyval;
  hash : option (list byte);
  flags : Py.pyval;
  read_only : Py.pyval;
  compressed : Py.pyval;
  executable : Py.pyval;
  install_tags : Py.pyval;
  file_size : Z;
  hash_md5 : option (list byte);
  mime_type : Py.pyval;
  hash_sha256 : option (list byte);
  chunk_parts : list ChunkPart.t
}.
End FileManifest.

Module CDL.
Record t := {
  version : Py.pyval;
  count : Py.pyval;
  elements : list ChunkInfo.t
}.
End CDL.

Module FML.
Record t := {
  version : Py.pyval;
  count : Py.pyval;
  elements : list FileManifest.t
}.
End FML.

Module Meta.
Record t := {
  data_version : Py.pyval;
  feature_level : Py.pyval;
  is_file_data : Py.pyval;
  app_id : Py.pyval;
  app_name : Py.pyval;
  build_version : Py.pyval;
  launch_exe : Py.pyval;
  launch_command : Py.pyval;
  prereq_ids : Py.pyval;
  prereq_name : Py.pyval;
  prereq_path : Py.pyval;
  prereq_args : Py.pyval;
  build_id : Py.pyval;
  uninstall_action_path : Py.pyval;
  uninstall_action_args : Py.pyval
}.
End Meta.

Module Manifest.
Record t := {
  version : Py.pyval;
  header_size : Py.pyval;
  compressed : Py.pyval;
  meta : option Meta.t;
  chunk_data_list : option CDL.t;
  file_manifest_list : option FML.t;
  (** [Some (Some d)]: an object with the attribute [_dict];
      [Some None]: an object without it *)
  custom_fields : option (option Py.pyval)
}.
End Manifest.

Module Render.
Import Py.

(** The two digits of [bytes.hex()] for one byte. *)
Definition hex_digit (n : N) : ascii :=
  match n with
  | 0 => "0" | 1 => "1" | 2 => "2" | 3 => "3" | 4 => "4" | 5 => "5"
  | 6 => "6" | 7 => "7" | 8 => "8" | 9 => "9" | 10 => "a" | 11 => "b"
  | 12 => "c" | 13 => "d" | 14 => "e" | _ => "f"
  end%N%char.

Fixpoint hex (data : list byte) : string :=
  match data with
  | [] => ""
  | b :: rest =>
      String (hex_digit (Byte.to_N b / 16))
        (String (hex_digit (Byte.to_N b mod 16)) (hex rest))
  end.

(** [bytes_to_hex] (lines 19-23). *)
Definition bytes_to_hex (data : option (list byte)) : string :=
  match data with
  | None => ""
  | Some [] => ""
  | Some data => hex data
  end.

Section renderers.
Context `{!builtins}.

(** [serialize_chunk_part] (lines 110-118). *)
Definition serialize_chunk_part (part : ChunkPart.t) : pyval :=
  PDict (list_to_map
    [("guid", PList (ChunkPart.guid part));
     ("guidStr", ChunkPart.guid_str part);
     ("offset", ChunkPart.offset part);
     ("size", ChunkPart.size part);
     ("fileOffset", ChunkPart.file_offset part)]).

(** [serialize_file_manifest] (lines 91-107). *)
Definition serialize_file_manifest (fm : FileManifest.t) : pyval :=
  PDict (list_to_map
    [("filename", FileManifest.filename fm);
     ("symlinkTarget", FileManifest.symlink_target fm);
     ("hash", PStr (bytes_to_hex (FileManifest.hash fm)));
     ("flags", FileManifest.flags fm);
     ("isReadOnly", FileManifest.read_only fm);
     ("isCompressed", FileManifest.compressed fm);
     ("isExecutable", FileManifest.executable fm);
     ("installTags", FileManifest.install_tags fm);
     ("fileSize", PInt (FileManifest.file_size fm));
     ("hashMd5", PStr (bytes_to_hex (FileManifest.hash_md5 fm)));
     ("mimeType", FileManifest.mime_type fm);
     ("hashSha256", PStr (bytes_to_hex (FileManifest.hash_sha256 fm)));
     ("chunkParts",
      PList (serialize_chunk_part <$> FileManifest.chunk_parts fm))]).

(** [serialize_file_manifest_list] (lines 82-88). *)
Definition serialize_file_manifest_list (fml : FML.t) : pyval :=
  PDict (list_to_map
    [("version", FML.version fml);
     ("count", FML.count fml);
     ("files", PList (serialize_file_manifest <$> FML.elements fml))]).

(** [serialize_chunk_info] (lines 69-79). *)
Definition serialize_chunk_info (chunk : ChunkInfo.t) : pyval :=
  PDict (list_to_map
    [("guid", PList (ChunkInfo.guid chunk));
     ("guidStr", ChunkInfo.guid_str chunk);
     ("hash", PStr (str (ChunkInfo.hash chunk)));
     ("shaHash", PStr (bytes_to_hex (ChunkInfo.sha_hash chunk)));
     ("groupNum", ChunkInfo.group_num chunk);
     ("windowSize", ChunkInfo.window_size chunk);
     ("fileSize", PInt (ChunkInfo.file_size chunk))]).

(** [serialize_chunk_data_list] (lines 60-66). *)
Definition serialize_chunk_data_list (cdl : CDL.t) : pyval :=
  PDict (list_to_map
    [("version", CDL.version cdl);
     ("count", CDL.count cdl);
     ("chunks", PList (serialize_chunk_info <$> CDL.elements cdl))]).

(** [serialize_meta] (lines 39-57). *)
Definition serialize_meta (meta : Meta.t) : pyval :=
  PDict (list_to_map
    [("dataVersion", Meta.data_version meta);
     ("featureLevel", Meta.feature_level meta);
     ("isFileData", Meta.is_file_data meta);
     ("appId", Meta.app_id meta);
     ("appName", Meta.app_name meta);
     ("buildVersion", Meta.build_version meta);
     ("launchExe", Meta.launch_exe meta);
     ("launchCommand", Meta.launch_command meta);
     ("prereqIds", Meta.prereq_ids meta);
     ("prereqName", Meta.prereq_name meta);
     ("prereqPath", Meta.prereq_path meta);
     ("prereqArgs", Meta.prereq_args meta);
     ("buildId", Meta.build_id meta);
     ("uninstallActionPath", Meta.uninstall_action_path meta);
     ("uninstallActionArgs", Meta.uninstall_action_args meta)]).

(** [serialize_custom_fields] (lines 121-123). *)
Definition serialize_custom_fields (cf : option pyval) : pyval :=
  match cf with
  | Some _dict => _dict
  | None => PDict ∅
  end.

(** [serialize_manifest] (lines 26-36). *)
Definition serialize_manifest (manifest : Manifest.t) : pyval :=
  PDict (list_to_map
    [("version", Manifest.version manifest);
     ("headerSize", Manifest.header_size manifest);
     ("isCompressed", Manifest.compressed manifest);
     ("meta",
      match Manifest.meta manifest with
      | Some meta => serialize_meta meta
      | None => PNone
      end);
     ("chunkDataList",
      match Manifest.chunk_data_list manifest with
      | Some cdl => serialize_chunk_data_list cdl
      | None => PNone
      end);
     ("fileManifestList",
      match Manifest.file_manifest_list manifest with
      | Some fml => serialize_file_manifest_list fml
      | None => PNone
      end);
     ("customFields",
      match Manifest.custom_fields manifest with
      | Some cf => serialize_custom_fields cf
      | None => PNone
      end)]).

(** [sum(...)] over integers. *)
Definition sum (l : list Z) : Z := foldr Z.add 0 l.

(** [create_manifest_summary] (lines 126-159). *)
Definition create_manifest_summary (manifest : Manifest.t) : pyval :=
  let total_download_size :=
    match Manifest.chunk_data_list manifest with
    | Some cdl => sum (ChunkInfo.file_size <$> CDL.elements cdl)
    | None => 0
    end in
  let total_installed_size :=
    match Manifest.file_manifest_list manifest with
    | Some fml => sum (FileManifest.file_size <$> FML.elements fml)
    | None => 0
    end in
  let chunks :=
    match Manifest.chunk_data_list manifest with
    | Some cdl => Z.of_nat (length (CDL.elements cdl))
    | None => 0
    end in
  let files :=
    match Manifest.file_manifest_list manifest with
    | Some fml => Z.of_nat (length (FML.elements fml))
    | None => 0
    end in
  PDict (list_to_map
    [("version", Manifest.version manifest);
     ("appName",
      match Manifest.meta manifest with
      | Some meta => Meta.app_name meta
      | None => PNone
      end);
     ("buildVersion",
      match Manifest.meta manifest with
      | Some meta => Meta.build_version meta
      | None => PNone
      end);
     ("chunkCount", PInt chunks);
     ("fileCount", PInt files);
     ("totalChunks", PInt chunks);
     ("totalFiles", PInt files);
     ("downloadSize", PInt total_download_size);
     ("installedSize", PInt total_installed_size);
     ("sampleFiles",
      PList ((λ fm,
                PDict (list_to_map
                  [("filename", FileManifest.filename fm);
                   ("size", PInt (FileManifest.file_size fm));
                   ("hash", PStr (bytes_to_hex (FileManifest.hash fm)));
                   ("chunkParts",
                    PInt (Z.of_nat (length (FileManifest.chunk_parts fm))))]))
             <$> match Manifest.file_manifest_list manifest with
                 | Some fml => take 5 (FML.elements fml)
                 | None => []
                 end));
     ("sampleChunks",
      PList ((λ chunk,
                PDict (list_to_map
                  [("guid", ChunkInfo.guid_str chunk);
                   ("hash", PStr (str (ChunkInfo.hash chunk)));
                   ("size", PInt (ChunkInfo.file_size chunk));
                   ("groupNum", ChunkInfo.group_num chunk)]))
             <$> match Manifest.chunk_data_list manifest with
                 | Some cdl => take 5 (CDL.elements cdl)
                 | None => []
                 end))]).

End renderers.

(** What the script writes: the JSON result on standard output, the usage
    line on standard output, the error message on standard error. *)
Inductive written :=
  | Result (v : pyval)
  | Usage
  | Error (e : exn).

Section script.
Context `{!builtins}.
Variable read_all : ManifestTest.decoder -> list byte -> result Manifest.t.
Variable read_file : string -> result (list byte).

(** [parse_and_serialize] with the two renderers in place. *)
Definition parse (manifest_path output_format : string) : result pyval :=
  ManifestTest.parse_and_serialize Manifest.t read_all
    (λ m, Ok (create_manifest_summary m)) (λ m, Ok (serialize_manifest m))
    read_file manifest_path output_format.

(** [main] (lines 179-194) on [sys.argv]. *)
Definition main (argv : list string) : result unit * list written :=
  match argv with
  | [] | [_] => (Raise (SystemExit 1), [Usage])
  | _ :: manifest_path :: rest =>
      let output_format :=
        match rest with
        | fmt :: _ => fmt
        | [] => "summary"
        end in
      match parse manifest_path output_format with
      | Ok result => (Ok (), [Result result])
      | Raise e =>
          if is_Exception e then (Raise (SystemExit 1), [Error e])
          else (Raise e, [])
      end
  end.

End script.

(** What [bytes.fromhex] makes of two hexadecimal digits per byte. *)
Definition digit_value (c : ascii) : option N :=
  (if Ascii.eqb c "0" then Some 0 else if Ascii.eqb c "1" then Some 1
   else if Ascii.eqb c "2" then Some 2 else if Ascii.eqb c "3" then Some 3
   else if Ascii.eqb c "4" then Some 4 else if Ascii.eqb c "5" then Some 5
   else if Ascii.eqb c "6" then Some 6 else if Ascii.eqb c "7" then Some 7
   else if Ascii.eqb c "8" then Some 8 else if Ascii.eqb c "9" then Some 9
   else if Ascii.eqb c "a" then Some 10 else if Ascii.eqb c "b" then Some 11
   else if Ascii.eqb c "c" then Some 12 else if Ascii.eqb c "d" then Some 13
   else if Ascii.eqb c "e" then Some 14 else if Ascii.eqb c "f" then Some 15
   else None)%N%char.

Fixpoint fromhex (s : string) : option (list byte) :=
  match s with
  | EmptyString => Some []
  | String c1 (String c2 rest) =>
      hi ← digit_value c1;
      lo ← digit_value c2;
      b ← Byte.of_N (16 * hi + lo);
      bs ← fromhex rest;
      Some (b :: bs)
  | String _ EmptyString => None
  end.

(** The chunks and files that a manifest lists ([[]] without the list). *)
Definition chunks_of (m : Manifest.t) : list ChunkInfo.t :=
  match Manifest.chunk_data_list m with
  | Some cdl => CDL.elements cdl
  | None => []
  end.

Definition files_of (m : Manifest.t) : list FileManifest.t :=
  match Manifest.file_manifest_list m with
  | Some fml => FML.elements fml
  | None => []
  end.

(** [full[part][key]] where [full[part]] may be [None]: the list under it,
    [[]] for [None]. *)
Definition listed (full : pyval) (part key : string) : result (list pyval) :=
  p ← getitem full part;
  match p with
  | PNone => Ok []
  | _ => l ← getitem p key; iter l
  end.

(** The integer that a rendered object holds under [key] (0 if none). *)
Definition int_at (key : string) (v : pyval) : Z :=
  match getitem v key with
  | Ok (PInt n) => n
  | _ => 0
  end.

End Render.

(* ===================================================================== *)
(** * gogdl/cli.py and gogdl/args.py                                      *)
(* ===================================================================== *)

Module Cli.
Import Py Api Manager.

(** What a handler writes to standard output: [print(json.dumps(v))], with
    [indent=2] when [pretty]. *)
Inductive output :=
  | Print (v : pyval) (pretty : bool).

(** [v[:20]] is defined for strings and lists and raises [TypeError] (for a
    dictionary, depending on the Python version, [KeyError]) otherwise. *)
Definition sliceable (v : pyval) : bool :=
  match v with
  | PStr _ | PList _ => true
  | _ => false
  end.

(** The names given to [subparsers.add_parser] in [args.init_parser], in the
    order of the calls. *)
Definition subcommands : list string :=
  ["auth"; "download"; "info"; "repair"; "save-sync"; "list"; "game-ids";
   "game-details"].

(** The callables that [main] puts into [switcher]. *)
Inductive handler :=
  | Handle_auth
  | Handle_list
  | Get_game_ids
  | Get_game_details
  | Download_manager_download
  | Calculate_download_size
  | Clouds_storage_manager_sync.

(** The dictionary [switcher] as [main] has built it (lines 386-416) when it
    looks the command up. *)
Definition switcher (command : string) : gmap string handler :=
  let switcher : gmap string handler := ∅ in
  let switcher :=
    if String.eqb command "auth" then <["auth" := Handle_auth]> switcher
    else switcher in
  let switcher :=
    if String.eqb command "list" then <["list" := Handle_list]> switcher
    else switcher in
  let switcher :=
    if String.eqb command "game-ids"
    then <["game-ids" := Get_game_ids]> switcher
    else switcher in
  let switcher :=
    if String.eqb command "game-details"
    then <["game-details" := Get_game_details]> switcher
    else switcher in
  let switcher :=
    if bool_decide (command ∈ ["download"; "repair"; "update"; "info"]) then
      <["info" := Calculate_download_size]>
        (<["update" := Download_manager_download]>
           (<["repair" := Download_manager_download]>
              (<["download" := Download_manager_download]> switcher)))
    else switcher in
  let switcher :=
    if String.eqb command "save-sync"
    then <["save-sync" := Clouds_storage_manager_sync]> switcher
    else switcher in
  switcher.

(** Lines 418-425 of [main]: the handler that is called, or [None] when
    "Unknown command" is logged. *)
Definition dispatch (command : string) : option handler :=
  switcher command !! command.

Section handlers.
Context `{!constants}.
(** [api_handler.auth_manager.get_credentials()] and
    [api_handler.session.get(url)], both outside the source tree. *)
Variable credentials : result pyval.
Variable session_get : string -> result response.

(** [cli.get_game_ids] (lines 21-54): the value is what the function returns
    or raises, together with what it has printed. *)
Definition get_game_ids (pretty : bool) : result unit * list output :=
  let try_block : result unit * list output :=
    match credentials with
    | Raise e => (Raise e, [])
    | Ok credentials =>
        if negb (truthy credentials) then (Ok (), [Print (PList []) false])
        else
          match token ← get credentials "access_token" (PStr "");
                if sliceable token then Ok () else Raise TypeError with
          | Raise e => (Raise e, [])
          | Ok _ =>
              match session_get (GOG_EMBED +:+ "/user/data/games") with
              | Raise e => (Raise e, [])
              | Ok response =>
                  if negb (ok response) then
                    (Ok (), [Print (PList []) false])
                  else
                    match user_data ← json response;
                          get user_data "owned" (PList []) with
                    | Raise e => (Raise e, [])
                    | Ok owned_games => (Ok (), [Print owned_games pretty])
                    end
              end
          end
    end in
  match try_block with
  | (Raise e, out) =>
      if is_Exception e then (Ok (), out ++ [Print (PList []) false])
      else (Raise e, out)
  | r => r
  end.

End handlers.

Section size.
Context `{!constants} `{!builtins}.
Variable w : world.
(** [self.download_manager.get_download_size()], outside the source tree. *)
Variable get_download_size : manager -> result pyval.

(** [AndroidManager.calculate_download_size] (manager.py, lines 171-185),
    the handler of the command [info]: the final [self], what the method
    returns or raises, and what it has printed.  The handler re-raises what it
    catches. *)
Definition calculate_download_size (self : AndroidManager)
  : AndroidManager * result unit * list output :=
  match setup_download_manager w self with
  | (self1, Raise e) => (self1, Raise e, [])
  | (self1, Ok _) =>
      match download_manager self1 with
      | None => (self1, Raise AttributeError, [])
      | Some m =>
          match get_download_size m with
          | Raise e => (self1, Raise e, [])
          | Ok download_size_response =>
              match builds self1 with
              | None => (self1, Raise AttributeError, [])
              | Some data =>
                  match download_size_response with
                  | PDict d =>
                      (self1, Ok (),
                       [Print (PDict (<["builds" := data]> d)) false])
                  | _ => (self1, Raise TypeError, [])
                  end
              end
          end
      end
  end.

End size.
End Cli.

(* ===================================================================== *)
(** * Reading a run of the API handler                                    *)
(* ===================================================================== *)

(** What the statements below say about a trace and about one attempt. *)
Module Run.
Import Py Api.

(** Seconds slept in a trace. *)
Fixpoint slept (tr : list event) : Q :=
  match tr with
  | [] => 0%Q
  | Sleep s :: tr' => (s + slept tr')%Q
  | _ :: tr' => slept tr'
  end.

(** The arguments of the [time.sleep] calls of a trace, in order. *)
Fixpoint sleeps (tr : list event) : list Q :=
  match tr with
  | [] => []
  | Sleep s :: tr' => s :: sleeps tr'
  | _ :: tr' => sleeps tr'
  end.

(** For each request of a trace, in order, the seconds slept between the
    request before it (or the start of the trace) and that request;
    [pending] is what has been slept since the last request. *)
Fixpoint delays_before (pending : Q) (tr : list event) : list Q :=
  match tr with
  | [] => []
  | Request _ :: tr' => pending :: delays_before 0%Q tr'
  | Sleep s :: tr' => delays_before (pending + s)%Q tr'
  | Log _ :: tr' => delays_before pending tr'
  end.

(** How one attempt of [get_secure_link] ends, given what its request came
    back with: with the value returned, with a retry after a log line of
    level [lv], or with an exception that no handler catches. *)
Inductive verdict :=
  | Success (urls : pyval)
  | Retry (lv : level)
  | Fatal (e : exn).

Definition verdict_of (o : result response) : verdict :=
  match o with
  | Raise e => if is_Exception e then Retry ERROR else Fatal e
  | Ok response =>
      if negb (status_code response =? 200) then Retry WARNING
      else
        match j ← json response; get j "urls" (PList []) with
        | Ok urls => Success urls
        | Raise e => if is_Exception e then Retry ERROR else Fatal e
        end
  end.

(** A failed attempt in the sense of the specification: a status other than
    200, or an exception raised by the transport. *)
Definition fails (o : result response) : Prop :=
  match o with
  | Raise e => is_Exception e = true
  | Ok response => status_code response ≠ 200
  end.

Definition retry_level (o : result response) : level :=
  match verdict_of o with
  | Retry lv => lv
  | _ => ERROR
  end.

(** The events of [n] attempts in a row that all end in a retry: the first
    is attempt number [attempt] and issues request number [k]. *)
Fixpoint failed_attempts (net : network) (url : string) (k : nat)
    (attempt : Z) (n : nat) : list event :=
  match n with
  | O => []
  | S n' =>
      Request url :: Log (retry_level (net k url)) :: Sleep (backoff attempt)
        :: failed_attempts net url (S k) (attempt + 1) n'
  end.


(** The outcome of [get_user_data] leaves ownership undetermined: it raised,
    returned [None], or returned a dictionary without the key ['owned']. *)
Definition undetermined (r : result pyval) : Prop :=
  match r with
  | Raise e => is_Exception e = true
  | Ok PNone => True
  | Ok (PDict d) => d !! "owned" = None
  | Ok _ => False
  end.

End Run.

(* ===================================================================== *)
(** * Reading a run of the build selection                                *)
(* ===================================================================== *)

Module Select.
Import Py Manager.

(** What a selection loop leaves in [self.target_build] when it has found
    [found]. *)
Definition pick (found : option pyval) (self : AndroidManager) : AndroidManager :=
  match found with
  | Some build => set_target_build build self
  | None => self
  end.

(** [self'] has the attributes of [self] that the selection only reads. *)
Definition same_inputs (self self' : AndroidManager) : Prop :=
  arguments self' = arguments self ∧ platform self' = platform self
  ∧ is_verifying self' = is_verifying self ∧ game_id self' = game_id self
  ∧ branch self' = branch self.

(** [b] is the first element of [l] that passes [test], all tests before it
    having returned [False]. *)
Definition first_passing (test : pyval → result bool) (l : list pyval)
    (b : pyval) : Prop :=
  ∃ l1 l2, l = l1 ++ b :: l2 ∧ test b = Ok true
           ∧ Forall (λ x, test x = Ok false) l1.

(** No element of [l] passes [test]. *)
Definition none_passing (test : pyval → result bool) (l : list pyval) : Prop :=
  Forall (λ x, test x = Ok false) l.

(** The world [w] with other files on disk. *)
Definition with_files (w : world) (files' : gmap string (result pyval)) : world :=
  {| session_get := session_get w; files := files';
     run_download := run_download w |}.

(** The URL that [get_builds] requests (lines 188-193). *)
Definition builds_url `{!Api.constants} (self : AndroidManager)
    (build_platform : string) : string :=
  let password_arg := Args.password (arguments self) in
  let password :=
    if negb (truthy_str password_arg) then ""
    else "&password=" +:+ default "" password_arg in
  let generation :=
    if truthy_str (Args.force_generation (arguments self))
    then default "" (Args.force_generation (arguments self))
    else "2" in
  Api.GOG_CONTENT_SYSTEM +:+ "/products/" +:+ game_id self +:+ "/os/"
    +:+ build_platform +:+ "/builds?&generation=" +:+ generation
    +:+ password.

End Select.

(* ===================================================================== *)
(** * The scenario of the specification, and inputs to run examples on    *)
(* ===================================================================== *)

Module Scenario.
Import Py Api Manager.

(** A build object of the builds endpoint. *)
Definition descriptor (build_id : string) (branch : option string)
    (generation : Z) : pyval :=
  PDict (list_to_map
    [("build_id", PStr build_id);
     ("branch", match branch with Some b => PStr b | None => PNone end);
     ("generation", PInt generation)]).

Definition A : pyval := descriptor "A" None 2.
Definition B : pyval := descriptor "B" (Some "beta") 2.
Definition C : pyval := descriptor "C" (Some "beta") 1.

(** The build that the loops over branches leave selected in the list
    A, B, C. *)
Definition by_branch (branch : option string) : pyval :=
  if eq_optstr PNone branch then A
  else if eq_optstr (PStr "beta") branch then B
  else A.

(** The decoded body of the builds response: the three builds, in order. *)
Definition builds_data : pyval :=
  PDict (list_to_map [("total_count", PInt 3); ("items", PList [A; B; C])]).

(** A world in which every builds request is answered with that body. *)
Definition world_of (files : gmap string (result pyval))
    (run_download : manager -> AndroidManager -> gmap string (result pyval)
                    -> result unit) : world :=
  {| session_get := fun _ =>
       Ok {| status_code := 200; ok := true; json := Ok builds_data |};
     files := files;
     run_download := run_download |}.

(** Values for [gogdl.constants] to run examples with. *)
Definition gog : constants :=
  {| GOG_CONTENT_SYSTEM := "https://content-system.gog.com";
     GOG_EMBED := "https://embed.gog.com";
     MANIFESTS_DIR := "/data/gogdl/manifests" |}.

(** Builtins to run examples with: [str] of [None], of a truth value and of
    a string, and [int] of the numerals ["1"] and ["2"]; the examples apply them
    to nothing else. *)
Definition py : builtins :=
  {| str := fun v =>
       match v with
       | PNone => "None"
       | PBool true => "True"
       | PBool false => "False"
       | PStr s => s
       | _ => "?"
       end;
     int_of_str := fun s =>
       if String.eqb s "1" then Some 1
       else if String.eqb s "2" then Some 2
       else None |}.

(** A transport on which every request fails to connect. *)
Definition unreachable : network := fun _ _ => Raise RequestException.

(** The response of a service that is down: status 503, no JSON body. *)
Definition status_503 : response :=
  {| status_code := 503; ok := false; json := Raise JSONDecodeError |}.

(** A secure-link response with one URL. *)
Definition secure_links : response :=
  {| status_code := 200; ok := true;
     json := Ok (PDict {[ "urls" := PList [PStr "https://cdn.gog.com/secure/1"] ]}) |}.

(** A transport whose first request fails to connect and whose later
    requests are answered with status 503. *)
Definition down : network := fun n _ =>
  match n with
  | O => Raise RequestException
  | _ => Ok status_503
  end.

(** A transport that answers the first request with status 503 and the
    later ones with [secure_links]. *)
Definition recovering : network := fun n _ =>
  match n with
  | O => Ok status_503
  | _ => Ok secure_links
  end.


(** Command lines: [gogdl <command> 1207658924 --platform windows] with the
    given [--branch] and [--build]. *)
Definition command_line (command : string) (branch build : option string)
  : Args.t :=
  {| Args.command := command; Args.platform := "windows";
     Args.id := "1207658924"; Args.branch := branch; Args.build := build;
     Args.password := None; Args.force_generation := None;
     Args.workers_count := None |}.

(** A manifest directory that holds, for game 1207658924, a manifest whose
    recorded version is [version]. *)
Definition cached (version : pyval) : gmap string (result pyval) :=
  {[ "/data/gogdl/manifests/1207658924" := Ok (PDict {[ "version" := version ]}) ]}.

(** Builtins with [str] of integers as well. *)
Definition python : builtins :=
  {| str := fun v =>
       match v with
       | PNone => "None"
       | PBool true => "True"
       | PBool false => "False"
       | PInt n => pretty n
       | PStr s => s
       | _ => "?"
       end;
     int_of_str := fun s =>
       if String.eqb s "1" then Some 1
       else if String.eqb s "2" then Some 2
       else None |}.


(** The user data of an account that owns two games. *)
Definition user_data : gmap string pyval :=
  {[ "owned" := PList [PInt 1207658924; PInt 1207658930] ]}.

Definition library : network := fun _ _ =>
  Ok {| status_code := 200; ok := true; json := Ok (PDict user_data) |}.

(** A world whose builds endpoint answers 404. *)
Definition refused : world :=
  {| session_get := fun _ =>
       Ok {| status_code := 404; ok := false; json := Raise JSONDecodeError |};
     files := ∅;
     run_download := fun _ _ _ => Ok () |}.

(** A world whose builds endpoint lists B before A. *)
Definition beta_first : world :=
  {| session_get := fun _ =>
       Ok {| status_code := 200; ok := true;
             json := Ok (PDict (list_to_map
                       [("total_count", PInt 2); ("items", PList [B; A])])) |};
     files := ∅;
     run_download := fun _ _ _ => Ok () |}.

(** A world whose builds endpoint reports one build and lists none. *)
Definition no_items : world :=
  {| session_get := fun _ =>
       Ok {| status_code := 200; ok := true;
             json := Ok (PDict (list_to_map
                       [("total_count", PInt 1); ("items", PList [])])) |};
     files := ∅;
     run_download := fun _ _ _ => Ok () |}.

End Scenario.

(* ===================================================================== *)
(** * Format detection                                                    *)
(* ===================================================================== *)

Section Detection.
Import Py ManifestTest.

Lemma detect_binary (data : list byte) :
  detect data = Manifest_read_all ↔ take 4 data = magic.
Proof.
  unfold detect. case_bool_decide; split; intros; try done.
Qed.

Lemma detect_json (data : list byte) :
  detect data = JSONManifest_read_all ↔ take 4 data ≠ magic.
Proof.
  unfold detect. case_bool_decide; split; intros; try done.
Qed.

Lemma take4_magic (data : list byte) :
  take 4 data = magic ↔ ∃ rest, data = x0c :: xc0 :: xbe :: x44 :: rest.
Proof.
  unfold magic. split.
  - intros H.
    destruct data as [|b0 [|b1 [|b2 [|b3 rest]]]]; simpl in H; try discriminate.
    injection H as -> -> -> ->. by exists rest.
  - by intros [rest ->].
Qed.

(** C1.  [parse_and_serialize] hands the file's bytes to the binary decoder
    [Manifest.read_all] exactly when they begin with 0x0C 0xC0 0xBE 0x44, and
    to [JSONManifest.read_all] for every other input (shorter than four bytes
    included); whatever the decoders and renderers are, the result is the one
    computed from the decoder so chosen. *)
Theorem parse_and_serialize_detection (data : list byte) :
  (detect data = Manifest_read_all
     ↔ ∃ rest, data = x0c :: xc0 :: xbe :: x44 :: rest)
  ∧ (detect data = JSONManifest_read_all
     ↔ ¬ ∃ rest, data = x0c :: xc0 :: xbe :: x44 :: rest)
  ∧ ∀ (manifest : Type) read_all summary full read_file path fmt,
      read_file path = Ok data →
      parse_and_serialize manifest read_all summary full read_file path fmt
      = (m ← read_all
               (if bool_decide (take 4 data = [x0c; xc0; xbe; x44])
                then Manifest_read_all else JSONManifest_read_all) data;
         if String.eqb fmt "summary" then summary m else full m).
Proof.
  split; [|split].
  - rewrite detect_binary. apply take4_magic.
  - rewrite detect_json, take4_magic. done.
  - intros manifest read_all summary full read_file path fmt Hread.
    unfold parse_and_serialize. rewrite Hread. done.
Qed.

(** The claim of C7 fails: the constant is not the byte string
    0x44 0xBE 0xC0 0x0C.  An input that begins with those four bytes goes to
    the JSON decoder, and they are not the little-endian encoding of
    0x44BEC00C either (they encode 0x0CC0BE44). *)
Lemma magic_is_not_big_endian_order :
  magic ≠ [x44; xbe; xc0; x0c]
  ∧ detect [x44; xbe; xc0; x0c; x00; x00; x00; x00] = JSONManifest_read_all
  ∧ le32_encode 0x44BEC00C ≠ [x44; xbe; xc0; x0c]
  ∧ le_decode [x44; xbe; xc0; x0c] = 0x0CC0BE44.
Proof. repeat split; try discriminate; reflexivity. Qed.

(** C7 (amended).  The constant compared with the first four bytes is, in
    byte order, 0x0C 0xC0 0xBE 0x44: the little-endian encoding of the 32-bit
    value 0x44BEC00C. *)
Theorem magic_little_endian :
  magic = [x0c; xc0; xbe; x44]
  ∧ magic = le32_encode 0x44BEC00C
  ∧ le_decode magic = 0x44BEC00C
  ∧ ∀ data, detect data = Manifest_read_all
            ↔ take 4 data = le32_encode 0x44BEC00C.
Proof.
  repeat split; try reflexivity.
  - by intros ?%detect_binary.
  - by intros ?%detect_binary.
Qed.

End Detection.

(* ===================================================================== *)
(** * The sleeps that [time.sleep] accepts                                *)
(* ===================================================================== *)

Section Backoff.
Import Py Api.

Lemma backoff_below_36 (attempt : Z) :
  attempt < 36 → (0 < backoff attempt ∧ backoff attempt <= 6871947673.6)%Q.
Proof.
  intros Hlt. unfold backoff.
  assert (H0 : (0 < 2 ^ attempt)%Q) by (apply Qpower_0_lt; reflexivity).
  assert (H1 : (2 ^ attempt <= 2 ^ 35)%Q)
    by (apply Qpower_le_compat_l; [lia | discriminate]).
  change ((2:Q) ^ 35)%Q with 34359738368%Q in H1.
  split; lra.
Qed.


(** Up to attempt 35 the sleep is accepted: 0.2 * 2^35 seconds are fewer
    than 2^63 nanoseconds. *)
Lemma time_sleep_accepts (attempt : Z) :
  attempt < 36 → time_sleep (backoff attempt) = Ok ().
Proof.
  intros Hlt. destruct (backoff_below_36 attempt Hlt) as [H0 H1].
  unfold time_sleep.
  change (inject_Z (2 ^ 63)) with 9223372036854775808%Q.
  change (inject_Z (- 2 ^ 63)) with (-9223372036854775808)%Q.
  assert (Qle_bool 9223372036854775808 (backoff attempt * 1000000000) = false)
    as ->.
  { destruct (Qle_bool _ _) eqn:E; [|done]. apply Qle_bool_iff in E. lra. }
  assert (Qle_bool (-9223372036854775808) (backoff attempt * 1000000000) = true)
    as -> by (apply Qle_bool_iff; lra).
  assert (Qle_bool 0 (backoff attempt) = true) as ->
    by (apply Qle_bool_iff; lra).
  done.
Qed.


Lemma sleep_backoff_ok (attempt : Z) (tr : list event) :
  attempt < 36 →
  sleep_backoff attempt tr = (Ok (), tr ++ [Sleep (backoff attempt)]).
Proof.
  intros Hlt. unfold sleep_backoff, sleep_time.
  destruct (Z.leb_spec 1024 attempt); [lia|].
  by rewrite time_sleep_accepts.
Qed.


End Backoff.

(* ===================================================================== *)
(** * Secure links: bounded retry with backoff                            *)
(* ===================================================================== *)

Section SecureLink.
Import Py Api Run.
Context `{!constants}.
Variable net : network.
Variables (product_id path : string) (generation : Z) (root : option string).

Local Abbreviation url := (secure_link_url product_id path generation root).
Local Abbreviation gsl := (get_secure_link net product_id path generation root).

Lemma issued_app (tr1 tr2 : list event) :
  issued (tr1 ++ tr2) = (issued tr1 + issued tr2)%nat.
Proof. unfold issued. by rewrite filter_app, length_app. Qed.

Lemma issued_cons (e : event) (tr : list event) :
  issued (e :: tr) = ((if is_Request e then 1 else 0) + issued tr)%nat.
Proof.
  unfold issued. destruct e; simpl;
    by rewrite ?filter_cons_True, ?filter_cons_False by (simpl; tauto).
Qed.

Lemma issued_attempt (tr : list event) u lv s :
  issued (tr ++ [Request u; Log lv; Sleep s]) = S (issued tr).
Proof. rewrite issued_app. change (issued [_; _; _]) with 1%nat. lia. Qed.

Lemma get_secure_link_exhausted (attempt max_retries : Z) (tr : list event) :
  attempt >= max_retries →
  gsl attempt max_retries tr = (Ok (PList []), tr ++ [Log ERROR]).
Proof.
  intros Hge. rewrite get_secure_link_equation_1.
  destruct (Z_ge_dec attempt max_retries) as [?|Hlt]; [done | lia].
Qed.

(** One attempt below the limit, written out: [retry] is what lines 170-172
    and lines 181-183 do alike. *)
Lemma get_secure_link_step (attempt max_retries : Z) (tr : list event) :
  attempt < max_retries →
  gsl attempt max_retries tr =
    let retry (t : list event) :=
      match sleep_backoff attempt t with
      | (Ok _, t') => gsl (attempt + 1) max_retries t'
      | (Raise e, t') => (Raise e, t')
      end in
    let try_block :=
      match net (issued tr) url with
      | Ok response =>
          if negb (status_code response =? 200)
          then retry (tr ++ [Request url; Log WARNING])
          else (j ← json response; get j "urls" (PList []),
                tr ++ [Request url])
      | Raise e => (Raise e, tr ++ [Request url])
      end in
    match try_block with
    | (Raise e, t) =>
        if is_Exception e then retry (t ++ [Log ERROR]) else (Raise e, t)
    | (Ok urls, t) => (Ok urls, t)
    end.
Proof.
  intros Hlt. rewrite get_secure_link_equation_1.
  destruct (Z_ge_dec attempt max_retries) as [Hge|Hn]; [lia|]. simpl.
  unfold get_authenticated_request.
  destruct (net (issued tr) url) as [r|e0]; simpl; [|done].
  destruct (negb (status_code r =? 200)); [|done].
  by rewrite <- !app_assoc.
Qed.

(** With at most 36 attempts every sleep is accepted, and an exception that
    leaves [get_secure_link] is never an [Exception]: those are all turned
    into a retry. *)
Lemma get_secure_link_raises (attempt max_retries : Z) (tr tr' : list event) e :
  max_retries <= 36 →
  gsl attempt max_retries tr = (Raise e, tr') → is_Exception e = false.
Proof.
  intros Hmax.
  remember (Z.to_nat (max_retries - attempt)) as m eqn:Hm.
  revert attempt tr tr' e Hm.
  induction m as [m IH] using lt_wf_ind. intros attempt tr tr' e Hm.
  destruct (Z_lt_ge_dec attempt max_retries) as [Hlt|Hge];
    [|by rewrite get_secure_link_exhausted].
  rewrite get_secure_link_step by done. cbv beta zeta.
  assert (Hrec : ∀ t t', gsl (attempt + 1) max_retries t = (Raise e, t') →
                         is_Exception e = false).
  { intros t t'. apply (IH (Z.to_nat (max_retries - (attempt + 1)))); lia. }
  destruct (net (issued tr) url) as [r|e0].
  - destruct (negb (status_code r =? 200)).
    + rewrite sleep_backoff_ok by lia.
      destruct (gsl (attempt + 1) max_retries _) as [[u|e1] t1] eqn:Hcall;
        [done|].
      destruct (is_Exception e1) eqn:He1.
      * rewrite sleep_backoff_ok by lia. intros Heq. eapply Hrec, Heq.
      * congruence.
    + destruct (json r ≫= _) as [u|e1]; [done|].
      destruct (is_Exception e1) eqn:He1.
      * rewrite sleep_backoff_ok by lia. intros Heq. eapply Hrec, Heq.
      * congruence.
  - destruct (is_Exception e0) eqn:He0.
    + rewrite sleep_backoff_ok by lia. intros Heq. eapply Hrec, Heq.
    + congruence.
Qed.

(** An attempt that ends the call: a request, then the value or the
    exception. *)
Lemma get_secure_link_ends (attempt max_retries : Z) (tr : list event) :
  attempt < max_retries →
  match verdict_of (net (issued tr) url) with
  | Success urls =>
      gsl attempt max_retries tr = (Ok urls, tr ++ [Request url])
  | Fatal e => gsl attempt max_retries tr = (Raise e, tr ++ [Request url])
  | Retry _ => True
  end.
Proof.
  intros Hlt. rewrite get_secure_link_step by done. cbv beta zeta.
  unfold verdict_of.
  destruct (net (issued tr) url) as [r|e0].
  - destruct (negb (status_code r =? 200)); [done|].
    destruct (json r ≫= _) as [u|e1]; [done|].
    by destruct (is_Exception e1).
  - by destruct (is_Exception e0).
Qed.

(** An attempt that ends in a retry, its sleep accepted: the call ends as
    attempt [attempt + 1] does, unless that raises an [Exception] into the
    [try] block of this one. *)
Lemma get_secure_link_retry (attempt max_retries : Z) (tr tr' : list event)
    lv (r : result pyval) :
  attempt < max_retries → attempt < 36 →
  verdict_of (net (issued tr) url) = Retry lv →
  gsl (attempt + 1) max_retries
    (tr ++ [Request url; Log lv; Sleep (backoff attempt)]) = (r, tr') →
  (∀ e, r = Raise e → is_Exception e = false) →
  gsl attempt max_retries tr = (r, tr').
Proof.
  intros Hlt H36 Hv Hnext Hr. rewrite get_secure_link_step by done.
  cbv beta zeta. revert Hv. unfold verdict_of.
  destruct (net (issued tr) url) as [resp|e0].
  - destruct (negb (status_code resp =? 200)).
    + intros [= <-]. rewrite sleep_backoff_ok by done.
      rewrite <- !app_assoc. simpl. rewrite Hnext.
      destruct r as [u|e1]; [done|]. by rewrite (Hr e1).
    + destruct (json resp ≫= _) as [u|e1]; [done|].
      destruct (is_Exception e1); [|done].
      intros [= <-]. rewrite sleep_backoff_ok by done.
      by rewrite <- !app_assoc.
  - destruct (is_Exception e0); [|done].
    intros [= <-]. rewrite sleep_backoff_ok by done.
    by rewrite <- !app_assoc.
Qed.

(** One attempt below the limit when the limit is at most 36: a request,
    then what [verdict_of] says. *)
Lemma get_secure_link_attempt (attempt max_retries : Z) (tr : list event) :
  attempt < max_retries → max_retries <= 36 →
  gsl attempt max_retries tr =
    match verdict_of (net (issued tr) url) with
    | Success urls => (Ok urls, tr ++ [Request url])
    | Retry lv =>
        gsl (attempt + 1) max_retries
          (tr ++ [Request url; Log lv; Sleep (backoff attempt)])
    | Fatal e => (Raise e, tr ++ [Request url])
    end.
Proof.
  intros Hlt Hmax. pose proof (get_secure_link_ends attempt max_retries tr Hlt) as He.
  destruct (verdict_of (net (issued tr) url)) as [urls|lv|e] eqn:Hv; try done.
  destruct (gsl (attempt + 1) max_retries _) as [r tr'] eqn:Hnext.
  eapply get_secure_link_retry; try done; [lia|].
  intros e ->. by eapply get_secure_link_raises.
Qed.

Lemma fails_retry (o : result response) :
  fails o → verdict_of o = Retry (retry_level o).
Proof.
  unfold retry_level, verdict_of, fails. destruct o as [r|e].
  - intros Hne. by destruct (Z.eqb_spec (status_code r) 200).
  - by intros ->.
Qed.

(** [k] attempts that end in a retry, all of them numbered below 36: the
    call ends as the run that goes on from attempt [attempt + k], after
    their events, does - unless that raises an [Exception]. *)
Lemma get_secure_link_retries (k : nat) :
  ∀ (attempt max_retries : Z) tr tr' (r : result pyval),
  attempt + Z.of_nat k <= max_retries →
  attempt + Z.of_nat k <= 36 →
  (∀ i, (i < k)%nat →
        ∃ lv, verdict_of (net (issued tr + i)%nat url) = Retry lv) →
  gsl (attempt + Z.of_nat k) max_retries
    (tr ++ failed_attempts net url (issued tr) attempt k) = (r, tr') →
  (∀ e, r = Raise e → is_Exception e = false) →
  gsl attempt max_retries tr = (r, tr').
Proof.
  induction k as [|k IH]; intros attempt max_retries tr tr' r Hle H36 Hretry.
  - simpl. by rewrite Z.add_0_r, app_nil_r.
  - intros Hlast Hr. destruct (Hretry 0%nat) as [lv Hlv]; [lia|].
    rewrite Nat.add_0_r in Hlv.
    eapply get_secure_link_retry; [lia|lia|done| |done].
    apply IH; [lia|lia| | |done].
    + intros i Hi. rewrite issued_attempt.
      replace (S (issued tr) + i)%nat with (issued tr + S i)%nat by lia.
      apply Hretry. lia.
    + rewrite issued_attempt, <- app_assoc.
      replace (attempt + 1 + Z.of_nat k) with (attempt + Z.of_nat (S k)) by lia.
      rewrite <- Hlast. simpl. unfold retry_level. by rewrite Hlv.
Qed.

Lemma issued_failed_attempts k : ∀ n attempt,
  issued (failed_attempts net url k attempt n) = n.
Proof.
  intros n. revert k. induction n as [|n IH]; intros k attempt; [done|].
  simpl. rewrite !issued_cons, IH. done.
Qed.

Lemma sleeps_failed_attempts k : ∀ n attempt,
  sleeps (failed_attempts net url k attempt n)
  = (λ i : nat, backoff (attempt + Z.of_nat i)) <$> seq 0 n.
Proof.
  intros n. revert k. induction n as [|n IH]; intros k attempt; [done|].
  simpl. rewrite IH. rewrite Z.add_0_r. f_equal.
  rewrite <- (fmap_S_seq 0 n), <- list_fmap_compose.
  apply list_fmap_ext. intros _ i _. simpl. f_equal. lia.
Qed.

(** A run of attempts that all fail and reach the limit, none of them
    numbered 36 or more: their events, the error line, the empty list. *)
Lemma get_secure_link_all_fail (n : nat) (attempt max_retries : Z)
    (tr : list event) :
  attempt + Z.of_nat n = max_retries → max_retries <= 36 →
  (∀ i, (i < n)%nat →
        ∃ lv, verdict_of (net (issued tr + i)%nat url) = Retry lv) →
  gsl attempt max_retries tr
  = (Ok (PList []),
     tr ++ failed_attempts net url (issued tr) attempt n ++ [Log ERROR]).
Proof.
  intros Hn Hmax Hretry.
  apply (get_secure_link_retries n); [lia|lia|done| |done].
  rewrite get_secure_link_exhausted by lia. by rewrite <- app_assoc.
Qed.

(** C3.  With [max_retries = 3] (and the default [attempt = 0]), when each of
    the three attempts fails - a status other than 200 or an exception raised
    by the transport - the call issues exactly three requests, sleeps 0.2,
    0.4 and 0.8 seconds, 1.4 seconds in all, and returns the empty list; no
    exception leaves the call. *)
Theorem get_secure_link_three_failures (tr : list event) :
  (∀ i, (i < 3)%nat → fails (net (issued tr + i)%nat url)) →
  ∃ evs,
    gsl 0 3 tr = (Ok (PList []), tr ++ evs)
    ∧ issued evs = 3%nat
    ∧ sleeps evs = [0.2; 0.4; 0.8]%Q
    ∧ (slept evs == 0.2 + 0.4 + 0.8)%Q
    ∧ (slept evs == 1.4)%Q.
Proof.
  intros Hfail.
  exists (failed_attempts net url (issued tr) 0 3 ++ [Log ERROR]).
  split; [|split; [|split; [|split]]].
  - apply (get_secure_link_all_fail 3); [done|lia|].
    intros i Hi. eexists. by apply fails_retry, Hfail.
  - rewrite issued_app, issued_failed_attempts. reflexivity.
  - reflexivity.
  - reflexivity.
  - reflexivity.
Qed.

(** The trace of a call begins with the trace it was given. *)
Lemma get_secure_link_extends (attempt max_retries : Z) :
  ∀ tr, ∃ evs, snd (gsl attempt max_retries tr) = tr ++ evs.
Proof.
  remember (Z.to_nat (max_retries - attempt)) as m eqn:Hm.
  revert attempt Hm. induction m as [m IH] using lt_wf_ind.
  intros attempt Hm tr.
  destruct (Z_lt_ge_dec attempt max_retries) as [Hlt|Hge];
    [|rewrite get_secure_link_exhausted by done; by eexists].
  assert (Hrec : ∀ t, ∃ evs, snd (gsl (attempt + 1) max_retries t) = t ++ evs).
  { intros t. apply (IH (Z.to_nat (max_retries - (attempt + 1)))); lia. }
  assert (Hretry : ∀ evs0, ∃ evs,
            snd (match sleep_backoff attempt (tr ++ evs0) with
                 | (Ok _, t') => gsl (attempt + 1) max_retries t'
                 | (Raise e, t') => (Raise e, t')
                 end) = tr ++ evs).
  { intros evs0. unfold sleep_backoff.
    destruct (sleep_time attempt) as [s|e1]; [|by eexists].
    destruct (time_sleep s) as [[]|e1]; [|by eexists].
    destruct (Hrec ((tr ++ evs0) ++ [Sleep s])) as [evs ->].
    rewrite <- !app_assoc. by eexists. }
  rewrite get_secure_link_step by done. cbv beta zeta.
  destruct (net (issued tr) url) as [r|e0].
  - destruct (negb (status_code r =? 200)).
    + destruct (Hretry [Request url; Log WARNING]) as [evs1 Hevs1].
      match type of Hevs1 with
      | snd ?inner = _ => destruct inner as [[u|e1] t1]
      end; simpl in Hevs1; subst t1; [by eexists|].
      destruct (is_Exception e1); [|by eexists].
      rewrite <- app_assoc. apply Hretry.
    + destruct (json r ≫= _) as [u|e1]; [by eexists|].
      destruct (is_Exception e1); [|by eexists].
      rewrite <- app_assoc. apply Hretry.
  - destruct (is_Exception e0); [|by eexists].
    rewrite <- app_assoc. apply Hretry.
Qed.

(** C6 (amended).  The delay 0.2 * 2^n belongs to the end of attempt [n]:
    when attempt [n], below the limit and below 36, fails, the call issues
    its request, logs, sleeps 0.2 * 2^n seconds and only then goes on - with
    at most 36 attempts, as attempt [n + 1] (which issues the next request,
    or returns the empty list at the limit).  Nothing is slept before the
    request of the attempt itself. *)
Theorem backoff_after_failed_attempt (attempt max_retries : Z) (tr : list event) :
  0 <= attempt < 36 →
  attempt < max_retries →
  fails (net (issued tr) url) →
  ∃ lv,
    (backoff attempt == 0.2 * 2 ^ attempt)%Q
    ∧ (∃ rest,
         snd (gsl attempt max_retries tr)
         = tr ++ [Request url; Log lv; Sleep (backoff attempt)] ++ rest)
    ∧ (max_retries <= 36 →
       gsl attempt max_retries tr
       = gsl (attempt + 1) max_retries
           (tr ++ [Request url; Log lv; Sleep (backoff attempt)])).
Proof.
  intros H36 Hlt Hfail. exists (retry_level (net (issued tr) url)).
  split; [reflexivity|]. split.
  - rewrite get_secure_link_step by done. cbv beta zeta.
    unfold retry_level, verdict_of.
    destruct (net (issued tr) url) as [r|e0].
    + simpl in Hfail. destruct (Z.eqb_spec (status_code r) 200); [done|].
      simpl. rewrite sleep_backoff_ok by lia. rewrite <- !app_assoc. simpl.
      destruct (get_secure_link_extends (attempt + 1) max_retries
                  (tr ++ [Request url; Log WARNING; Sleep (backoff attempt)]))
        as [evs Hevs].
      destruct (gsl (attempt + 1) max_retries _) as [[u|e1] t1];
        simpl in Hevs; subst t1; [rewrite <- app_assoc; by eexists|].
      destruct (is_Exception e1); [|rewrite <- app_assoc; by eexists].
      rewrite sleep_backoff_ok by lia.
      destruct (get_secure_link_extends (attempt + 1) max_retries
                  ((((tr ++ [Request url; Log WARNING; Sleep (backoff attempt)])
                      ++ evs) ++ [Log ERROR]) ++ [Sleep (backoff attempt)]))
        as [evs' ->].
      rewrite <- !app_assoc. by eexists.
    + simpl in Hfail. rewrite Hfail.
      rewrite sleep_backoff_ok by lia.
      destruct (get_secure_link_extends (attempt + 1) max_retries
                  (((tr ++ [Request url]) ++ [Log ERROR])
                     ++ [Sleep (backoff attempt)])) as [evs ->].
      rewrite <- !app_assoc. by eexists.
  - intros Hmax. rewrite get_secure_link_attempt by done.
    by rewrite fails_retry.
Qed.

(** C8.  When an attempt below the limit (after any number of attempts that
    ended in a retry, each numbered below 36 so that its sleep is accepted)
    gets a response with status 200 whose body decodes to a JSON object, the
    call returns the value stored under ['urls'] in that object, and the
    empty list when the object has no such key; it does not raise. *)
Theorem get_secure_link_returns_urls (k : nat) (attempt max_retries : Z)
    (tr : list event) (r : response) (d : gmap string pyval) :
  attempt + Z.of_nat k < max_retries →
  attempt + Z.of_nat k <= 36 →
  (∀ i, (i < k)%nat →
        ∃ lv, verdict_of (net (issued tr + i)%nat url) = Retry lv) →
  net (issued tr + k)%nat url = Ok r →
  status_code r = 200 →
  json r = Ok (PDict d) →
  fst (gsl attempt max_retries tr)
  = Ok (match d !! "urls" with
        | Some urls => urls
        | None => PList []
        end).
Proof.
  intros Hlt H36 Hretry Hnet Hstatus Hjson.
  pose proof (get_secure_link_ends (attempt + Z.of_nat k) max_retries
                (tr ++ failed_attempts net url (issued tr) attempt k) Hlt)
    as Hend.
  rewrite issued_app, issued_failed_attempts, Hnet in Hend.
  unfold verdict_of in Hend. rewrite Hstatus, Hjson in Hend. simpl in Hend.
  erewrite (get_secure_link_retries k); [|lia|done|done|exact Hend|done].
  simpl. by destruct (d !! "urls").
Qed.



End SecureLink.

(* ===================================================================== *)
(** * Ownership check                                                     *)
(* ===================================================================== *)

Section Ownership.
Import Py Api Run.
Context `{!constants} `{!builtins}.
Variable net : network.
Variable credentials : result pyval.

(** C9.  With an empty [self.owned], when [get_user_data] raises or returns
    nothing that has an ['owned'] key, [does_user_own] answers [True] for
    every game id (and leaves [self.owned] empty) instead of [False]. *)
Theorem does_user_own_fails_open (game_id : pyval) (tr : list event) :
  undetermined (fst (get_user_data net credentials tr)) →
  ∃ tr',
    does_user_own net credentials game_id [] tr = (Ok true, [], tr').
Proof.
  unfold does_user_own. simpl.
  destruct (get_user_data net credentials tr) as [[user_data|e] tr1]; simpl.
  - destruct user_data as [| | | | |d]; try done.
    + intros _. by eexists.
    + intros Hnone.
      assert (contains (PDict d) "owned" = Ok false) as ->.
      { simpl. rewrite Hnone. by rewrite bool_decide_eq_false_2 by (by intros [? ?]). }
      destruct (truthy (PDict d)); by eexists.
  - intros ->. by eexists.
Qed.

End Ownership.

(* ===================================================================== *)
(** * Build selection                                                     *)
(* ===================================================================== *)

Lemma M_bind_eval {A B} (m : Manager.M A) (k : A → Manager.M B)
    (self : Manager.AndroidManager) :
  (m ≫= k) self =
    match m self with
    | (self', Py.Ok a) => k a self'
    | (self', Py.Raise e) => (self', Py.Raise e)
    end.
Proof. reflexivity. Qed.

Lemma M_ret_eval {A} (a : A) (self : Manager.AndroidManager) :
  (mret a : Manager.M A) self = (self, Py.Ok a).
Proof. reflexivity. Qed.

(** Run a method body as far as its head is known. *)
Ltac run_M :=
  repeat first
    [ rewrite M_bind_eval
    | rewrite M_ret_eval
    | progress (unfold Manager.try_except, Manager.attr, Manager.lift,
                Manager.assign, Manager.raise, Manager.exit,
                Manager.builds_items, Manager.target_build_item)
    | progress (cbn [Manager.builds Manager.target_build
                     Manager.download_manager Manager.arguments
                     Manager.platform Manager.is_verifying Manager.game_id
                     Manager.branch Manager.set_builds
                     Manager.set_target_build Manager.set_download_manager]) ].

Section Selection.
Import Py Api Manager Select.
Context `{!constants} `{!builtins}.
Variable w : world.

Lemma for_build_in_items_eval test (self : AndroidManager) data l :
  builds self = Some data →
  getitem data "items" = Ok (PList l) →
  for_build_in_items test self =
    match first_match test l with
    | Ok found => (pick found self, Ok ())
    | Raise e => (self, Raise e)
    end.
Proof.
  intros Hb Hitems. unfold for_build_in_items, builds_items.
  unfold mbind, M_bind at 1. rewrite Hb, Hitems.
  unfold mbind, M_bind, lift. simpl.
  destruct (first_match test l) as [[b|]|e]; done.
Qed.

(** Lines 101-148 on a platform other than Linux, once the builds endpoint
    has answered with a non-empty list: the first build, then the three
    loops, each overriding the one before. *)
Lemma select_target_build_eval (self : AndroidManager) data first rest :
  platform self ≠ "linux" →
  get_builds w self (platform self) = Ok data →
  getitem data "items" = Ok (PList (first :: rest)) →
  select_target_build w self =
    let items := first :: rest in
    let self0 := set_target_build first (set_builds data self) in
    match first_match is_default_branch items with
    | Raise e => (self0, Raise e)
    | Ok found1 =>
        let self1 := pick found1 self0 in
        match first_match (on_branch (branch self)) items with
        | Raise e => (self1, Raise e)
        | Ok found2 =>
            let self2 := pick found2 self1 in
            if truthy_str (Args.build (arguments self)) then
              match first_match (has_build_id (Args.build (arguments self)))
                      items with
              | Raise e => (self2, Raise e)
              | Ok found3 => (pick found3 self2, Ok true)
              end
            else (self2, Ok true)
        end
    end.
Proof.
  intros Hp Hget Hitems.
  apply String.eqb_neq in Hp.
  assert (Hlen : len (PList (first :: rest)) = Ok (Z.of_nat (S (length rest))))
    by done.
  assert (Hfirst : getitem0 (PList (first :: rest)) = Ok first) by done.
  remember (first :: rest) as items eqn:Hi. cbv zeta.
  unfold select_target_build.
  run_M. rewrite Hp.
  run_M. unfold fetch_builds at 1. rewrite Hget.
  run_M. rewrite Hitems, Hlen.
  run_M.
  replace (Z.of_nat (S (length rest)) =? 0) with false
    by (symmetry; apply Z.eqb_neq; lia).
  run_M. rewrite Hitems.
  run_M. rewrite Hfirst.
  run_M.
  rewrite (for_build_in_items_eval _ _ data items) by done.
  fold is_default_branch.
  destruct (first_match is_default_branch items) as [found1|e1]; [|done].
  run_M.
  erewrite (for_build_in_items_eval _ _ data items);
    [|by destruct found1|done].
  replace (branch (pick found1 _)) with (branch self) by (by destruct found1).
  fold (on_branch (branch self)).
  destruct (first_match (on_branch (branch self)) items) as [found2|e2];
    [|done].
  run_M.
  replace (arguments (pick found2 _)) with (arguments self)
    by (by destruct found1, found2).
  destruct (truthy_str (Args.build (arguments self))); [|by run_M].
  run_M.
  erewrite (for_build_in_items_eval _ _ data items);
    [|by destruct found1, found2|done].
  fold (has_build_id (Args.build (arguments self))).
  destruct (first_match (has_build_id _) items) as [found3|e3]; by run_M.
Qed.

(** Lines 150-169, once a build is selected. *)
Lemma select_download_manager_eval (self : AndroidManager) build :
  target_build self = Some build →
  select_download_manager w self =
    match g ← getitem build "generation"; cached_generation w self g with
    | Raise e => (self, Raise e)
    | Ok g =>
        if eq_int g 1 then (set_download_manager v1_Manager self, Ok ())
        else if eq_int g 2 then (set_download_manager v2_Manager self, Ok ())
        else (self, Raise (Exception
                "Unsupported depot version please report this"))
    end.
Proof.
  intros Htb. unfold select_download_manager. run_M. rewrite Htb.
  destruct (getitem build "generation") as [g0|e]; [|done].
  run_M. cbn [mbind result_bind].
  destruct (cached_generation w self g0) as [g|e]; [|done].
  destruct (eq_int g 1) eqn:E1; [by run_M|].
  destruct (eq_int g 2) eqn:E2; by run_M.
Qed.

Lemma setup_download_manager_eval (self self1 : AndroidManager) :
  select_target_build w self = (self1, Ok true) →
  setup_download_manager w self = select_download_manager w self1.
Proof. intros Hsel. unfold setup_download_manager. run_M. by rewrite Hsel. Qed.

Lemma for_build_in_items_frame test (self self' : AndroidManager) r :
  for_build_in_items test self = (self', r) → same_inputs self self'.
Proof.
  unfold for_build_in_items. run_M.
  destruct (builds self) as [data|]; [|by intros [= <- _]].
  destruct (getitem data "items") as [items|e]; [|by intros [= <- _]].
  run_M. destruct (_ ≫= _) as [[b|]|e]; run_M; by intros [= <- _].
Qed.

Lemma same_inputs_trans (s1 s2 s3 : AndroidManager) :
  same_inputs s1 s2 → same_inputs s2 s3 → same_inputs s1 s3.
Proof.
  unfold same_inputs. intros (?&?&?&?&?) (?&?&?&?&?).
  repeat split; congruence.
Qed.

Lemma select_target_build_frame (self self' : AndroidManager) r :
  select_target_build w self = (self', r) → same_inputs self self'.
Proof.
  unfold select_target_build. run_M.
  destruct (String.eqb (platform self) "linux") eqn:Hp.
  { run_M. by intros [= <- _]. }
  run_M. unfold fetch_builds at 1.
  destruct (get_builds w self (platform self)) as [data|e].
  2:{ destruct e; run_M; rewrite ?Hp; run_M; by intros [= <- _]. }
  run_M.
  destruct (getitem data "items") as [items|e] eqn:Hitems;
    [|by intros [= <- _]].
  run_M. destruct (len items) as [n|e]; [|by intros [= <- _]].
  run_M. destruct (n =? 0); [by intros [= <- _]|].
  run_M. rewrite Hitems.
  run_M. destruct (getitem0 items) as [first|e]; [|by intros [= <- _]].
  run_M.
  destruct (for_build_in_items _ _) as [s1 [u1|e]] eqn:H1;
    apply for_build_in_items_frame in H1; [|by intros [= <- _]].
  run_M.
  destruct (for_build_in_items _ s1) as [s2 [u2|e]] eqn:H2;
    apply for_build_in_items_frame in H2;
    [|intros [= <- _]; by eapply same_inputs_trans].
  run_M.
  destruct (truthy_str _).
  - destruct (for_build_in_items _ s2) as [s3 [u3|e]] eqn:H3;
      apply for_build_in_items_frame in H3; run_M; intros [= <- _];
      eapply same_inputs_trans; [|done|idtac|done];
      by eapply same_inputs_trans.
  - run_M. intros [= <- _]. by eapply same_inputs_trans.
Qed.

Lemma try_reraise {A} (body : M A) (self : AndroidManager) :
  try_except body is_Exception (λ e, raise e) self = body self.
Proof.
  unfold try_except, raise, lift.
  destruct (body self) as [self' [a|e]]; [done|]. by destruct (is_Exception e).
Qed.

Lemma getitem_truthy data key v : getitem data key = Ok v → truthy data = true.
Proof.
  destruct data as [| | | | |d]; try done. simpl.
  destruct (d !! key) eqn:Hd; [|done]. intros _.
  apply negb_true_iff, bool_decide_eq_false_2. intros ->.
  by rewrite lookup_empty in Hd.
Qed.

(** What [download] stores in [self.target_build] (line 76) on a platform
    other than Linux, when both selection loops run through. *)
Lemma download_target_build (self : AndroidManager) data first rest found1 found2 :
  platform self ≠ "linux" →
  get_builds w self (platform self) = Ok data →
  getitem data "items" = Ok (PList (first :: rest)) →
  first_match (on_branch_get (branch self)) (first :: rest) = Ok found1 →
  (if truthy_str (Args.build (arguments self))
   then first_match (has_build_id_get (Args.build (arguments self)))
          (first :: rest)
   else Ok None) = Ok found2 →
  target_build (fst (download w self))
  = Some (default (default first found1) found2).
Proof.
  intros Hp Hget Hitems H1 H2. apply String.eqb_neq in Hp.
  assert (Hlen : len (PList (first :: rest)) = Ok (Z.of_nat (S (length rest))))
    by done.
  assert (Hfirst : getitem0 (PList (first :: rest)) = Ok first) by done.
  remember (first :: rest) as items eqn:Hi.
  unfold download. rewrite try_reraise.
  run_M. rewrite Hp.
  run_M. rewrite Hget.
  run_M. rewrite (getitem_truthy _ _ _ Hitems). cbn [negb].
  cbn [mbind result_bind]. rewrite Hitems. cbn [mbind result_bind].
  rewrite Hlen. cbn [mbind result_bind mret result_ret].
  replace (Z.of_nat (S (length rest)) =? 0) with false
    by (symmetry; apply Z.eqb_neq; lia).
  run_M. rewrite Hfirst.
  run_M. cbn [mbind result_bind iter].
  fold (on_branch_get (branch self)). rewrite H1.
  run_M.
  fold (has_build_id_get (Args.build (arguments self))).
  match goal with
  | |- context [match ?c with Ok _ => _ | Raise _ => _ end] =>
      replace c with (Ok found2 : result (option pyval))
        by (rewrite <- H2; by destruct (truthy_str _))
  end.
  run_M.
  destruct (get _ "generation" _) as [g|e]; [|done].
  run_M. destruct (eq_int g 1).
  { run_M. unfold manager_download. by destruct (run_download w v1_Manager _ _). }
  destruct (eq_int g 2).
  { run_M. unfold manager_download. by destruct (run_download w v2_Manager _ _). }
  by run_M.
Qed.

Lemma is_verifying_repair (args : Args.t) :
  is_verifying (__init__ args) = true ↔ Args.command args = "repair".
Proof. apply String.eqb_eq. Qed.

(** The override of lines 152-157.  When [is_verifying] is true (which
    [__init__] sets exactly for the command ["repair"]) and a manifest file
    exists under [MANIFESTS_DIR] for the game id and holds a JSON object
    whose ['version'] converts to the integer [n], the generation that
    [setup_download_manager] goes on with is [n]: the value of
    ['generation'] in the selected build is read but has no influence on the
    generation check or on the download manager chosen.  This is the method
    behind the command [info]; the command [repair] runs [download]. *)
Theorem cached_manifest_overrides_generation (self self1 : AndroidManager)
    (build remote manifest_data version : pyval) (n : Z) :
  is_verifying self = true →
  files w !! os_path_join MANIFESTS_DIR (game_id self) = Some (Ok manifest_data) →
  getitem manifest_data "version" = Ok version →
  int version = Ok n →
  select_target_build w self = (self1, Ok true) →
  target_build self1 = Some build →
  getitem build "generation" = Ok remote →
  cached_generation w self1 remote = Ok (PInt n)
  ∧ setup_download_manager w self =
      (if n =? 1 then (set_download_manager v1_Manager self1, Ok ())
       else if n =? 2 then (set_download_manager v2_Manager self1, Ok ())
       else (self1, Raise (Exception
               "Unsupported depot version please report this"))).
Proof.
  intros Hver Hfile Hversion Hint Hsel Htb Hgen.
  destruct (select_target_build_frame _ _ _ Hsel) as (_ & _ & Hv & Hid & _).
  assert (Hcached : cached_generation w self1 remote = Ok (PInt n)).
  { unfold cached_generation. rewrite Hv, Hver, Hid, Hfile.
    cbn [mbind result_bind]. rewrite Hversion.
    cbn [mbind result_bind]. by rewrite Hint. }
  split; [done|].
  rewrite (setup_download_manager_eval _ _ Hsel).
  rewrite (select_download_manager_eval _ _ Htb), Hgen.
  cbn [mbind result_bind]. rewrite Hcached. done.
Qed.

(** C5.  On a platform other than Linux, when the builds endpoint answers
    with an empty list of items, [setup_download_manager] ends in [exit(1)]
    with no build selected and no download manager set.  When the generation
    it arrives at - the selected build's, or the cached manifest's where that
    overrides it - equals neither 1 nor 2, it raises the exception
    "Unsupported depot version please report this" and sets no download
    manager. *)
Theorem setup_download_manager_failures (self : AndroidManager) :
  (∀ data,
     platform self ≠ "linux" →
     get_builds w self (platform self) = Ok data →
     getitem data "items" = Ok (PList []) →
     setup_download_manager w self
     = (set_builds data self, Raise (SystemExit 1)))
  ∧ (∀ (self1 : AndroidManager) build remote generation,
       select_target_build w self = (self1, Ok true) →
       target_build self1 = Some build →
       getitem build "generation" = Ok remote →
       cached_generation w self1 remote = Ok generation →
       eq_int generation 1 = false →
       eq_int generation 2 = false →
       setup_download_manager w self
       = (self1, Raise (Exception
                   "Unsupported depot version please report this"))).
Proof.
  split.
  - intros data Hp Hget Hitems. apply String.eqb_neq in Hp.
    unfold setup_download_manager, select_target_build.
    run_M. rewrite Hp.
    run_M. unfold fetch_builds at 1. rewrite Hget.
    run_M. rewrite Hitems. by run_M.
  - intros self1 build remote generation Hsel Htb Hgen Hcached H1 H2.
    rewrite (setup_download_manager_eval _ _ Hsel).
    rewrite (select_download_manager_eval _ _ Htb), Hgen.
    cbn [mbind result_bind]. by rewrite Hcached, H1, H2.
Qed.

End Selection.

(* ===================================================================== *)
(** * The scenario A, B, C                                                *)
(* ===================================================================== *)

Section ScenarioFacts.
Import Py Api Manager Select Scenario.
Context `{!constants} `{!builtins}.
Variable files : gmap string (result pyval).
Variable run : manager → AndroidManager → gmap string (result pyval)
               → result unit.

Local Abbreviation w := (world_of files run).

Lemma scenario_fields :
  getitem A "branch" = Ok PNone
  ∧ getitem B "branch" = Ok (PStr "beta")
  ∧ getitem C "branch" = Ok (PStr "beta")
  ∧ getitem A "build_id" = Ok (PStr "A")
  ∧ getitem B "build_id" = Ok (PStr "B")
  ∧ getitem C "build_id" = Ok (PStr "C")
  ∧ getitem builds_data "items" = Ok (PList [A; B; C])
  ∧ getitem builds_data "total_count" = Ok (PInt 3).
Proof. repeat split; vm_compute; reflexivity. Qed.

Lemma get_of_getitem (v : pyval) (k : string) (x dflt : pyval) :
  getitem v k = Ok x → get v k dflt = Ok x.
Proof.
  destruct v as [| | | | |d]; try done. simpl.
  by destruct (d !! k); intros [= ->].
Qed.

Lemma scenario_get_builds (self : AndroidManager) (p : string) :
  get_builds w self p = Ok builds_data.
Proof.
  destruct scenario_fields as (_&_&_&_&_&_&_&Hcount).
  unfold get_builds. cbn [session_get world_of mbind result_bind ok json negb].
  by rewrite Hcount.
Qed.

(** Which build each loop finds in the list A, B, C. *)
Lemma scenario_default_branch :
  first_match is_default_branch [A; B; C] = Ok (Some A).
Proof. vm_compute. reflexivity. Qed.

Lemma scenario_on_branch (branch : option string) :
  first_match (on_branch branch) [A; B; C]
  = Ok (if eq_optstr PNone branch then Some A
        else if eq_optstr (PStr "beta") branch then Some B
        else None).
Proof.
  destruct scenario_fields as (HA & HB & HC & _).
  unfold first_match, on_branch. rewrite HA, HB, HC.
  cbn [mbind result_bind mret result_ret].
  destruct (eq_optstr PNone branch); [done|].
  by destruct (eq_optstr (PStr "beta") branch).
Qed.

Lemma scenario_on_branch_get (branch : option string) :
  first_match (on_branch_get branch) [A; B; C]
  = first_match (on_branch branch) [A; B; C].
Proof.
  destruct scenario_fields as (HA & HB & HC & _).
  unfold first_match, on_branch_get, on_branch.
  by rewrite (get_of_getitem _ _ _ PNone HA), (get_of_getitem _ _ _ PNone HB),
    (get_of_getitem _ _ _ PNone HC).
Qed.

Lemma scenario_build_id_C :
  first_match (has_build_id (Some "C")) [A; B; C] = Ok (Some C)
  ∧ first_match (has_build_id_get (Some "C")) [A; B; C] = Ok (Some C).
Proof. split; vm_compute; reflexivity. Qed.

Lemma select_download_manager_target (w0 : world) (self : AndroidManager) :
  target_build (fst (select_download_manager w0 self)) = target_build self.
Proof.
  destruct (target_build self) as [build|] eqn:Htb.
  - rewrite (select_download_manager_eval _ _ _ Htb).
    destruct (_ ≫= _) as [g|e]; [|done].
    destruct (eq_int g 1); [done|]. by destruct (eq_int g 2).
  - unfold select_download_manager. run_M. by rewrite Htb.
Qed.

(** What [setup_download_manager] leaves in [self.target_build] for the
    list A, B, C, when the loop over build ids finds [found]. *)
Lemma scenario_setup_target (self : AndroidManager) found :
  platform self ≠ "linux" →
  (if truthy_str (Args.build (arguments self))
   then first_match (has_build_id (Args.build (arguments self))) [A; B; C]
   else Ok None) = Ok found →
  target_build (fst (setup_download_manager w self))
  = Some (default (by_branch (branch self)) found).
Proof.
  intros Hp Hid.
  destruct scenario_fields as (_&_&_&_&_&_&Hitems&_).
  pose proof (select_target_build_eval w self builds_data A [B; C] Hp
                (scenario_get_builds _ _) Hitems) as Hsel.
  cbv zeta in Hsel.
  rewrite scenario_default_branch, scenario_on_branch in Hsel.
  unfold by_branch.
  destruct (truthy_str (Args.build (arguments self)));
    [rewrite Hid in Hsel | injection Hid as <-];
    rewrite (setup_download_manager_eval _ _ _ Hsel),
      select_download_manager_target;
    try destruct found;
    by destruct (eq_optstr PNone (branch self)),
      (eq_optstr (PStr "beta") (branch self)).
Qed.

(** The same for [download]. *)
Lemma scenario_download_target (self : AndroidManager) found :
  platform self ≠ "linux" →
  (if truthy_str (Args.build (arguments self))
   then first_match (has_build_id_get (Args.build (arguments self))) [A; B; C]
   else Ok None) = Ok found →
  target_build (fst (download w self))
  = Some (default (by_branch (branch self)) found).
Proof.
  intros Hp Hid.
  destruct scenario_fields as (_&_&_&_&_&_&Hitems&_).
  rewrite (download_target_build w self builds_data A [B; C] _ found Hp
             (scenario_get_builds _ _) Hitems
             (eq_trans (scenario_on_branch_get _) (scenario_on_branch _)) Hid).
  unfold by_branch.
  by destruct found, (eq_optstr PNone (branch self)),
    (eq_optstr (PStr "beta") (branch self)).
Qed.

(** C2.  For the build list A (no branch, generation 2), B (branch "beta",
    generation 2), C (branch "beta", generation 1), on a platform other than
    Linux, both [setup_download_manager] and [download] select: C when the
    build id "C" is given, whatever the branch argument ("beta" included);
    B when no build id is given and the branch is "beta"; A when neither a
    build id nor a branch is given. *)
Theorem build_selection_scenario (args : Args.t) :
  Args.platform args ≠ "linux" →
  (Args.build args = Some "C" →
     target_build (fst (setup_download_manager w (__init__ args))) = Some C
     ∧ target_build (fst (download w (__init__ args))) = Some C)
  ∧ (truthy_str (Args.build args) = false →
     Args.branch args = Some "beta" →
     target_build (fst (setup_download_manager w (__init__ args))) = Some B
     ∧ target_build (fst (download w (__init__ args))) = Some B)
  ∧ (truthy_str (Args.build args) = false →
     Args.branch args = None →
     target_build (fst (setup_download_manager w (__init__ args))) = Some A
     ∧ target_build (fst (download w (__init__ args))) = Some A).
Proof.
  intros Hp.
  destruct scenario_build_id_C as [HC HCget].
  split; [|split].
  - intros Hbuild.
    rewrite (scenario_setup_target (__init__ args) (Some C)),
      (scenario_download_target (__init__ args) (Some C));
      cbn [arguments platform __init__]; rewrite ?Hbuild; done.
  - intros Hbuild Hbranch.
    rewrite (scenario_setup_target (__init__ args) None),
      (scenario_download_target (__init__ args) None);
      cbn [arguments platform branch __init__]; rewrite ?Hbuild, ?Hbranch;
      done.
  - intros Hbuild Hbranch.
    rewrite (scenario_setup_target (__init__ args) None),
      (scenario_download_target (__init__ args) None);
      cbn [arguments platform branch __init__]; rewrite ?Hbuild, ?Hbranch;
      done.
Qed.

End ScenarioFacts.

(* ===================================================================== *)
(** * The statements at concrete inputs                                   *)
(* ===================================================================== *)

Section Instances.
Import Py Api Manager Run Scenario.

(** The claim of C6 fails.  Take three attempts that all fail to connect:
    nothing is slept before attempt 0, 0.2 s before attempt 1 and 0.4 s
    before attempt 2, where 0.2 * 2^n would be 0.2 s, 0.4 s and 0.8 s; the
    0.8 s are slept after the last attempt, before the empty list is
    returned. *)
Lemma backoff_is_not_before_attempt :
  let run := get_secure_link (H := gog) unreachable "1207658924" "" 2 None 0 3 [] in
  delays_before 0 (snd run) = [0; 0.2; 0.4]%Q
  ∧ ¬ (0 == backoff 0)%Q
  ∧ ¬ (0.2 == backoff 1)%Q
  ∧ ¬ (0.4 == backoff 2)%Q
  ∧ sleeps (snd run) = [0.2; 0.4; 0.8]%Q
  ∧ last (snd run) = Some (Log ERROR).
Proof. vm_compute. repeat split; discriminate. Qed.

(** C2 at the command lines [--build C --branch beta], [--branch beta] and
    no selector. *)
Lemma build_selection_scenario_witness :
  let w := world_of ∅ (λ _ _ _, Ok ()) in
  let select args :=
    (target_build (fst (setup_download_manager (H := gog) (H0 := py) w (__init__ args))),
     target_build (fst (download (H := gog) (H0 := py) w (__init__ args)))) in
  select (command_line "download" (Some "beta") (Some "C")) = (Some C, Some C)
  ∧ select (command_line "download" (Some "beta") None) = (Some B, Some B)
  ∧ select (command_line "download" None None) = (Some A, Some A).
Proof.
  assert (Hp : "windows" ≠ "linux") by discriminate.
  pose proof (@build_selection_scenario gog py ∅ (λ _ _ _, Ok ())) as H.
  cbv zeta. split; [|split].
  - destruct (proj1 (H (command_line "download" (Some "beta") (Some "C")) Hp)
                eq_refl) as [-> ->]. reflexivity.
  - destruct (proj1 (proj2 (H (command_line "download" (Some "beta") None) Hp))
                eq_refl eq_refl) as [-> ->]. reflexivity.
  - destruct (proj2 (proj2 (H (command_line "download" None None) Hp))
                eq_refl eq_refl) as [-> ->]. reflexivity.
Defined.

(** C3 on a transport that is down. *)
Lemma get_secure_link_three_failures_witness :
  ∃ evs,
    get_secure_link (H := gog) down "1207658924" "" 2 None 0 3 []
    = (Ok (PList []), [] ++ evs)
    ∧ issued evs = 3%nat
    ∧ sleeps evs = [0.2; 0.4; 0.8]%Q
    ∧ (slept evs == 0.2 + 0.4 + 0.8)%Q
    ∧ (slept evs == 1.4)%Q.
Proof.
  apply (@get_secure_link_three_failures gog down "1207658924" "" 2 None []).
  intros i Hi. destruct i as [|[|[|i]]]; simpl; (discriminate || done || lia).
Defined.

(** C4.  The command [repair] runs [download] (cli.py, lines 405-410), and
    [download] has no override.  In a repair of game 1207658924 whose cached
    manifest records version 1 while the selected build A reports generation
    2, [setup_download_manager] would choose [v1.Manager], as the
    specification says; [download] goes by the remote generation and runs
    [v2.Manager], whatever the managers do. *)
Theorem repair_ignores_cached_manifest :
  ∀ run,
    let w := world_of (cached (PInt 1)) run in
    let self := __init__ (command_line "repair" None None) in
    let self1 := set_target_build A (set_builds builds_data self) in
    Cli.dispatch "repair" = Some Cli.Download_manager_download
    ∧ is_verifying self = true
    ∧ files w !! os_path_join (MANIFESTS_DIR (constants := gog)) (game_id self)
      = Some (Ok (PDict {[ "version" := PInt 1 ]}))
    ∧ getitem A "generation" = Ok (PInt 2)
    ∧ setup_download_manager (H := gog) (H0 := py) w self
      = (set_download_manager v1_Manager self1, Ok ())
    ∧ download (H := gog) (H0 := py) w self
      = (self1, run v2_Manager self1 (cached (PInt 1))).
Proof.
  intros run. cbv zeta.
  repeat split; try (vm_compute; reflexivity).
  unfold download. rewrite try_reraise. vm_compute. reflexivity.
Qed.

(** The override at work in [setup_download_manager]: the same repair. *)
Lemma cached_manifest_overrides_generation_witness :
  let w := world_of (cached (PInt 1)) (λ _ _ _, Ok ()) in
  let self := __init__ (command_line "repair" None None) in
  let self1 := set_target_build A (set_builds builds_data self) in
  getitem A "generation" = Ok (PInt 2)
  ∧ cached_generation (H := gog) (H0 := py) w self1 (PInt 2) = Ok (PInt 1)
  ∧ setup_download_manager (H := gog) (H0 := py) w self
    = (set_download_manager v1_Manager self1, Ok ()).
Proof.
  cbv zeta. split; [reflexivity|].
  apply (@cached_manifest_overrides_generation gog py
           (world_of (cached (PInt 1)) (λ _ _ _, Ok ()))
           (__init__ (command_line "repair" None None))
           (set_target_build A
              (set_builds builds_data (__init__ (command_line "repair" None None))))
           A (PInt 2) (PDict {[ "version" := PInt 1 ]}) (PInt 1) 1);
    vm_compute; reflexivity.
Defined.

(** C5: an empty list of builds, and a repair whose cached manifest records
    version 3. *)
Lemma setup_download_manager_failures_witness :
  snd (setup_download_manager (H := gog) (H0 := py) no_items
         (__init__ (command_line "download" None None)))
  = Raise (SystemExit 1)
  ∧ snd (setup_download_manager (H := gog) (H0 := py)
           (world_of (cached (PInt 3)) (λ _ _ _, Ok ()))
           (__init__ (command_line "repair" None None)))
    = Raise (Exception "Unsupported depot version please report this").
Proof.
  split.
  - erewrite (proj1 (@setup_download_manager_failures gog py no_items
                       (__init__ (command_line "download" None None))));
      [reflexivity | discriminate | vm_compute; reflexivity
      | vm_compute; reflexivity].
  - erewrite (proj2 (@setup_download_manager_failures gog py
                       (world_of (cached (PInt 3)) (λ _ _ _, Ok ()))
                       (__init__ (command_line "repair" None None)))
                _ A (PInt 2) (PInt 3));
      [reflexivity | vm_compute; reflexivity ..].
Defined.

(** C6 (amended) at attempt 1 of 3 on a transport that is down. *)
Lemma backoff_after_failed_attempt_witness :
  ∃ lv,
    (backoff 1 == 0.2 * 2 ^ 1)%Q
    ∧ (∃ rest,
         snd (get_secure_link (H := gog) down "1207658924" "" 2 None 1 3 [])
         = [] ++ [Request (secure_link_url (H := gog) "1207658924" "" 2 None);
                  Log lv; Sleep (backoff 1)] ++ rest)
    ∧ (3 <= 36 →
       get_secure_link (H := gog) down "1207658924" "" 2 None 1 3 []
       = get_secure_link (H := gog) down "1207658924" "" 2 None (1 + 1) 3
           ([] ++ [Request (secure_link_url (H := gog) "1207658924" "" 2 None);
                   Log lv; Sleep (backoff 1)])).
Proof.
  apply (@backoff_after_failed_attempt gog down "1207658924" "" 2 None 1 3 []).
  - lia.
  - lia.
  - vm_compute. reflexivity.
Defined.

(** C8: a 503, then a response with one URL. *)
Lemma get_secure_link_returns_urls_witness :
  fst (get_secure_link (H := gog) recovering "1207658924" "" 2 None 0 3 [])
  = Ok (PList [PStr "https://cdn.gog.com/secure/1"]).
Proof.
  etransitivity.
  apply (@get_secure_link_returns_urls gog recovering "1207658924" "" 2 None
           1%nat 0 3 [] secure_links
           {[ "urls" := PList [PStr "https://cdn.gog.com/secure/1"] ]}).
  - lia.
  - lia.
  - intros i Hi. exists WARNING. destruct i as [|i]; [reflexivity | lia].
  - reflexivity.
  - reflexivity.
  - reflexivity.
  - vm_compute. reflexivity.
Defined.

(** C9: no credentials, no connection. *)
Lemma does_user_own_fails_open_witness :
  ∃ tr',
    does_user_own (H := gog) (H0 := py) unreachable (Ok PNone)
      (PStr "1207658924") [] []
    = (Ok true, [], tr').
Proof.
  apply (@does_user_own_fails_open gog py unreachable (Ok PNone)
           (PStr "1207658924") []).
  vm_compute. reflexivity.
Defined.


End Instances.

(* ===================================================================== *)
(** * Secure links: what holds on every transport                         *)
(* ===================================================================== *)

Section SecureLinkBounds.
Import Py Api Run.
Context `{!constants}.
Variable net : network.
Variables (product_id path : string) (generation : Z) (root : option string).

Local Abbreviation url := (secure_link_url product_id path generation root).
Local Abbreviation gsl := (get_secure_link net product_id path generation root).

(** Induction over the attempts that are left: a property of a call holds
    if it holds at the limit and is passed on from attempt [n + 1] to
    attempt [n]. *)
Lemma attempts_left_ind (max_retries : Z) (P : Z → Prop) :
  (∀ attempt, attempt >= max_retries → P attempt) →
  (∀ attempt, attempt < max_retries → P (attempt + 1) → P attempt) →
  ∀ attempt, P attempt.
Proof.
  intros Hlimit Hstep attempt.
  remember (Z.to_nat (max_retries - attempt)) as m eqn:Hm.
  revert attempt Hm. induction m as [|m IH]; intros attempt Hm.
  - apply Hlimit. lia.
  - apply Hstep; [lia|]. apply IH. lia.
Qed.




Lemma slept_app (tr1 tr2 : list event) :
  (slept (tr1 ++ tr2) == slept tr1 + slept tr2)%Q.
Proof.
  induction tr1 as [|e tr1 IH]; simpl.
  - ring.
  - destruct e; simpl; rewrite ?IH; ring.
Qed.

Lemma slept_failed_attempts (n : nat) : ∀ (k : nat) (attempt : Z),
  (slept (failed_attempts net url k attempt n)
   == 0.2 * 2 ^ attempt * (2 ^ Z.of_nat n - 1))%Q.
Proof.
  induction n as [|n IH]; intros k attempt.
  - simpl. ring.
  - cbn [failed_attempts slept]. rewrite IH. unfold backoff.
    rewrite Nat2Z.inj_succ, <- Z.add_1_r.
    rewrite !Qpower_plus by discriminate.
    change ((2:Q) ^ 1)%Q with (2:Q). ring.
Qed.

(** X4.  The backoff schedule in closed form: when all [n] attempts of a call
    with [max_retries = n], at most 36, fail, the call issues [n] requests,
    returns the empty list and has slept 0.2 * (2^n - 1) seconds in all. *)
Theorem get_secure_link_total_backoff (n : nat) (tr : list event) :
  (n <= 36)%nat →
  (∀ i, (i < n)%nat → fails (net (issued tr + i)%nat url)) →
  ∃ evs,
    gsl 0 (Z.of_nat n) tr = (Ok (PList []), tr ++ evs)
    ∧ issued evs = n
    ∧ (slept evs == 0.2 * (2 ^ Z.of_nat n - 1))%Q.
Proof.
  intros Hn Hfail.
  exists (failed_attempts net url (issued tr) 0 n ++ [Log ERROR]).
  split; [|split].
  - apply (get_secure_link_all_fail net product_id path generation root n);
      [lia|lia|].
    intros i Hi. eexists. by apply fails_retry, Hfail.
  - rewrite issued_app, issued_failed_attempts.
    change (issued [Log ERROR]) with 0%nat. lia.
  - rewrite slept_app, slept_failed_attempts. simpl. ring.
Qed.

(** X5.  A call never makes up a result: the value it returns is the empty
    list, or what a response with status 200 and a JSON object for a body
    holds under ['urls'] (the empty list when it holds nothing there). *)
Theorem get_secure_link_value_origin (attempt max_retries : Z)
    (tr : list event) (v : pyval) :
  fst (gsl attempt max_retries tr) = Ok v →
  v = PList []
  ∨ ∃ n r d,
      net n url = Ok r ∧ status_code r = 200 ∧ json r = Ok (PDict d)
      ∧ v = default (PList []) (d !! "urls").
Proof.
  revert tr. pattern attempt.
  apply (attempts_left_ind max_retries); clear attempt.
  - intros attempt Hge tr. rewrite get_secure_link_exhausted by done.
    simpl. intros [= <-]. by left.
  - intros attempt Hlt IH tr.
    assert (Hretry : ∀ t,
              fst (match sleep_backoff attempt t with
                   | (Ok _, t') => gsl (attempt + 1) max_retries t'
                   | (Raise e, t') => (Raise e, t')
                   end) = Ok v →
              v = PList []
              ∨ ∃ n r d,
                  net n url = Ok r ∧ status_code r = 200
                  ∧ json r = Ok (PDict d)
                  ∧ v = default (PList []) (d !! "urls")).
    { intros t. destruct (sleep_backoff attempt t) as [[[]|e1] t']; [|done].
      apply IH. }
    rewrite get_secure_link_step by done. cbv beta zeta.
    destruct (net (issued tr) url) as [r|e0] eqn:Hnet.
    + destruct (Z.eqb_spec (status_code r) 200) as [H200|Hne]; simpl.
      * destruct (json r) as [j|e1] eqn:Hjson; simpl.
        -- destruct j as [| | | | |d]; simpl; try apply Hretry.
           intros [= <-]. right. by exists (issued tr), r, d.
        -- destruct (is_Exception e1); [apply Hretry|done].
      * pose proof (Hretry (tr ++ [Request url; Log WARNING])) as Hinner.
        destruct (match sleep_backoff attempt _ with
                  | (Ok _, t') => gsl (attempt + 1) max_retries t'
                  | (Raise e, t') => (Raise e, t')
                  end) as [[u|e1] t1]; [exact Hinner|].
        destruct (is_Exception e1); [apply Hretry|done].
    + destruct (is_Exception e0); [apply Hretry|done].
Qed.

End SecureLinkBounds.

(* ===================================================================== *)
(** * User data and the ownership cache                                   *)
(* ===================================================================== *)

Section OwnershipCache.
Import Py Api Run.
Context `{!constants} `{!builtins}.
Variable net : network.
Variable credentials : result pyval.

Lemma issued_log (tr : list event) (lv : level) :
  issued (tr ++ [Log lv]) = issued tr.
Proof. rewrite issued_app. change (issued [Log lv]) with 0%nat. lia. Qed.

Lemma update_auth_header_issued (tr tr' : list event) r :
  _update_auth_header credentials tr = (r, tr') → issued tr' = issued tr.
Proof.
  unfold _update_auth_header.
  destruct credentials as [c|e]; [|by intros [= _ <-]].
  destruct (truthy c); [|intros [= _ <-]; apply issued_log].
  destruct (get c "access_token" PNone) as [token|e]; [|by intros [= _ <-]].
  destruct (truthy token); [|intros [= _ <-]; apply issued_log].
  destruct token; intros [= _ <-]; done || apply issued_log.
Qed.

(** X6.  What [get_user_data] returns is [None] or a dictionary, never
    anything else: [None] exactly when the response is not [ok], and
    otherwise the decoded body, which must be a JSON object.  Whenever it
    returns, it has sent exactly one request, to [GOG_EMBED/user/data/games]. *)
Theorem get_user_data_returns_None_or_dict (tr tr' : list event) (v : pyval) :
  get_user_data net credentials tr = (Ok v, tr') →
  ∃ r,
    net (issued tr) (GOG_EMBED +:+ "/user/data/games") = Ok r
    ∧ (if ok r then json r = Ok v ∧ ∃ d, v = PDict d else v = PNone)
    ∧ issued tr' = S (issued tr)
    ∧ Request (GOG_EMBED +:+ "/user/data/games") ∈ tr'.
Proof.
  unfold get_user_data, get_authenticated_request.
  destruct (_update_auth_header credentials tr) as [[[]|e] tr0] eqn:Hauth;
    [|done].
  apply update_auth_header_issued in Hauth.
  rewrite issued_log, Hauth.
  destruct (net (issued tr) _) as [r|e] eqn:Hnet; [|done].
  destruct (ok r) eqn:Hok.
  - destruct (json r) as [data|e] eqn:Hjson; [|done].
    destruct data as [| | | | |d]; try done.
    intros [= <- <-]. exists r. rewrite Hok.
    split; [done|]. split; [eauto|].
    split; [rewrite !issued_log, issued_app, issued_log;
            change (issued [Request _]) with 1%nat; lia|].
    rewrite !elem_of_app, !list_elem_of_singleton. tauto.
  - intros [= <- <-]. exists r. rewrite Hok.
    split; [done|]. split; [done|].
    split; [rewrite !issued_log, issued_app, issued_log;
            change (issued [Request _]) with 1%nat; lia|].
    rewrite !elem_of_app, !list_elem_of_singleton. tauto.
Qed.

Lemma existsb_eq_str (s : string) (gs : list pyval) :
  existsb (λ x, eq_str x s) ((λ g, PStr (str g)) <$> gs)
  = bool_decide (s ∈ str <$> gs).
Proof.
  induction gs as [|g gs IH]; [done|].
  cbn [fmap list_fmap existsb eq_str]. rewrite IH.
  destruct (String.eqb_spec (str g) s) as [->|Hne].
  - simpl. symmetry. apply bool_decide_eq_true_2. left.
  - simpl. apply bool_decide_ext. rewrite elem_of_cons. naive_solver.
Qed.

(** X7.  With an empty [self.owned], when the user data holds a list under
    ['owned'], the answer is decided by that list alone: it is [True] exactly
    when [str(game_id)] equals [str(g)] for a listed [g] - so [False] for an
    empty list - and [self.owned] becomes the list of those strings. *)
Theorem does_user_own_decided (game_id : pyval) (tr tr1 : list event)
    (d : gmap string pyval) (gs : list pyval) :
  get_user_data net credentials tr = (Ok (PDict d), tr1) →
  d !! "owned" = Some (PList gs) →
  does_user_own net credentials game_id [] tr
  = (Ok (bool_decide (str game_id ∈ str <$> gs)),
     (λ g, PStr (str g)) <$> gs, tr1).
Proof.
  intros Hdata Howned. unfold does_user_own. cbn [truthy].
  rewrite Hdata.
  assert (truthy (PDict d) = true) as ->.
  { simpl. apply negb_true_iff, bool_decide_eq_false_2. intros ->.
    by rewrite lookup_empty in Howned. }
  cbn [contains getitem]. rewrite Howned.
  rewrite bool_decide_eq_true_2 by eauto.
  cbn [mbind result_bind iter]. by rewrite existsb_eq_str.
Qed.

(** X8.  Once [self.owned] is filled, the cache answers: a call that leaves a
    non-empty [self.owned] behind is repeated by any later call for the same
    id with the same answer, on any transport and with any credentials,
    without a request, a log line or a change to the cache.  ([str] has to
    return a string unchanged, as Python's does.) *)
Theorem does_user_own_cached (game_id : pyval) (tr tr' : list event)
    (owned' : list pyval) (b : bool) :
  (∀ s, str (PStr s) = s) →
  does_user_own net credentials game_id [] tr = (Ok b, owned', tr') →
  owned' ≠ [] →
  ∀ net' credentials',
    does_user_own net' credentials' game_id owned' tr' = (Ok b, owned', tr').
Proof.
  intros Hstr Hcall Hne net' credentials'.
  assert (Hhit : does_user_own net' credentials' game_id owned' tr'
                 = (Ok (bool_decide (str game_id ∈ str <$> owned')), owned', tr')).
  { unfold does_user_own. by destruct owned'. }
  rewrite Hhit. clear Hhit.
  revert Hcall. unfold does_user_own. cbn [truthy].
  destruct (get_user_data net credentials tr) as [[user_data|e] tr1].
  - destruct (if truthy user_data then _ else _) as [[|]|e].
    + destruct (_ ≫= _) as [gs|e].
      * intros [= <- <- <-]. rewrite existsb_eq_str.
        assert (str <$> ((λ g, PStr (str g)) <$> gs) = str <$> gs) as ->;
          [|done].
        rewrite <- list_fmap_compose. apply list_fmap_ext.
        intros _ g _. simpl. by rewrite Hstr.
      * destruct (is_Exception e); intros [= _ <- _]; done.
    + by intros [= _ <- _].
    + destruct (is_Exception e); intros [= _ <- _]; done.
  - destruct (is_Exception e); intros [= _ <- _]; done.
Qed.

(** X9.  [does_user_own] says [False] only on the evidence of a list that
    lacks the id - the cached one, or the one just fetched - and it never
    raises an [Exception]: whatever else happens, the answer is [True]. *)
Theorem does_user_own_False_needs_a_list (game_id : pyval)
    (owned owned' : list pyval) (tr tr' : list event) (r : result bool) :
  does_user_own net credentials game_id owned tr = (r, owned', tr') →
  match r with
  | Ok true => True
  | Ok false =>
      (owned ≠ [] ∧ owned' = owned ∧ str game_id ∉ str <$> owned)
      ∨ (owned = [] ∧ ∃ d o gs tr1,
           get_user_data net credentials tr = (Ok (PDict d), tr1)
           ∧ d !! "owned" = Some o ∧ iter o = Ok gs
           ∧ str game_id ∉ str <$> gs)
  | Raise e => is_Exception e = false
  end.
Proof.
  unfold does_user_own. destruct owned as [|g0 owned]; cbn [truthy].
  - destruct (get_user_data net credentials tr) as [[user_data|e] tr1] eqn:Hdata.
    + destruct user_data as [| | | | |d]; cbn [truthy contains];
        try (intros [= <- _ _]; done).
      * destruct b; simpl; intros [= <- _ _]; done.
      * destruct (negb (z =? 0)); simpl; intros [= <- _ _]; done.
      * destruct (negb (s =? "")%string); [|intros [= <- _ _]; done].
        simpl. destruct (is_substring "owned" s); simpl;
          intros [= <- _ _]; done.
      * destruct l; [intros [= <- _ _]; done|].
        destruct (existsb _ _); simpl; intros [= <- _ _]; done.
      * destruct (negb (bool_decide (d = ∅))); [|intros [= <- _ _]; done].
        destruct (d !! "owned") as [o|] eqn:Ho.
        2:{ rewrite bool_decide_eq_false_2 by (by intros [? ?]).
            intros [= <- _ _]; done. }
        rewrite bool_decide_eq_true_2 by eauto.
        cbn [getitem]. rewrite Ho. cbn [mbind result_bind].
        destruct (iter o) as [gs|e] eqn:Hiter.
        -- rewrite existsb_eq_str. intros [= <- _ _].
           case_bool_decide; [done|]. right. split; [done|].
           by exists d, o, gs, tr1.
        -- assert (is_Exception e = true) as ->
             by (destruct o; simpl in Hiter; try discriminate;
                 by injection Hiter as <-).
           intros [= <- _ _]; done.
    + destruct (is_Exception e) eqn:He; intros [= <- _ _]; done.
  - intros [= <- <- _]. case_bool_decide; [done|]. by left.
Qed.

End OwnershipCache.

(* ===================================================================== *)
(** * Build selection on every list of builds                             *)
(* ===================================================================== *)

Section SelectionRules.
Import Py Api Manager Select.
Context `{!constants} `{!builtins}.
Variable w : world.

Lemma first_match_Some test (l : list pyval) (b : pyval) :
  first_match test l = Ok (Some b) → first_passing test l b.
Proof.
  induction l as [|x l IH]; [done|]. cbn [first_match mbind result_bind].
  destruct (test x) as [[|]|e] eqn:Hx; [| |done].
  - intros [= ->]. by exists [], l.
  - intros (l1 & l2 & -> & Hb & Hl1)%IH.
    exists (x :: l1), l2. by repeat split; [|constructor].
Qed.

Lemma first_match_None test (l : list pyval) :
  first_match test l = Ok None → none_passing test l.
Proof.
  induction l as [|x l IH]; [by constructor|].
  cbn [first_match mbind result_bind].
  destruct (test x) as [[|]|e] eqn:Hx; [done| |done].
  intros ?%IH. by constructor.
Qed.

(** X10.  [get_builds] sends one request, to the builds endpoint of the game
    and platform, and when that comes back with a response: a response that
    is not [ok] raises [UnsupportedPlatform]; an [ok] response whose body is
    an object with a ['total_count'] raises [UnsupportedPlatform] when the
    count is 0 and returns the body otherwise - so that a caller cannot tell
    a failed request from an empty catalogue; and whatever [get_builds]
    returns is the body of an [ok] response, an object with a
    ['total_count'] other than 0. *)
Theorem get_builds_outcome (self : AndroidManager) (build_platform : string)
    (response : Api.response) :
  session_get w (builds_url self build_platform) = Ok response →
  (ok response = false →
   get_builds w self build_platform = Raise UnsupportedPlatform)
  ∧ (∀ d total_count,
       ok response = true → json response = Ok (PDict d) →
       d !! "total_count" = Some total_count →
       get_builds w self build_platform
       = if eq_int total_count 0 then Raise UnsupportedPlatform
         else Ok (PDict d))
  ∧ (∀ data,
       get_builds w self build_platform = Ok data →
       ok response = true ∧ json response = Ok data
       ∧ ∃ d total_count,
           data = PDict d ∧ d !! "total_count" = Some total_count
           ∧ eq_int total_count 0 = false).
Proof.
  intros Hget. unfold get_builds. cbv zeta.
  fold (builds_url self build_platform). rewrite Hget.
  cbn [mbind result_bind]. split; [|split].
  - by intros ->.
  - intros d tc -> -> Hd. cbn [negb mbind result_bind getitem].
    by rewrite Hd.
  - intros data. destruct (ok response); [|done]. cbn [negb].
    destruct (json response) as [j|e1]; [|done]. cbn [mbind result_bind].
    destruct (getitem j "total_count") as [tc|e2] eqn:Htc; [|done].
    cbn [mbind result_bind].
    destruct (eq_int tc 0) eqn:Hzero; [done|]. intros [= <-].
    split; [done|]. split; [done|].
    destruct j as [| | | | |d]; try done. simpl in Htc.
    destruct (d !! "total_count") as [x|] eqn:Hd; [|done].
    injection Htc as ->. by exists d, tc.
Qed.

(** X11.  On a platform other than Linux, when the builds request is refused
    with [UnsupportedPlatform], the two entry points fail differently:
    [setup_download_manager] ends the process with [exit(1)], [download]
    lets the exception through to its caller.  Neither assigns anything to
    [self]. *)
Theorem unsupported_platform_exit_or_raise (self : AndroidManager) :
  platform self ≠ "linux" →
  get_builds w self (platform self) = Raise UnsupportedPlatform →
  setup_download_manager w self = (self, Raise (SystemExit 1))
  ∧ download w self = (self, Raise UnsupportedPlatform).
Proof.
  intros Hp%String.eqb_neq Hget. split.
  - unfold setup_download_manager, select_target_build.
    run_M. rewrite Hp. run_M. unfold fetch_builds at 1. rewrite Hget.
    run_M. rewrite Hp. by run_M.
  - unfold download. rewrite try_reraise.
    run_M. rewrite Hp. run_M. by rewrite Hget.
Qed.

(** What the selection phase has done to [target_build] and
    [download_manager] when it ends. *)
Lemma select_target_build_writes (self self1 : AndroidManager) r :
  select_target_build w self = (self1, r) →
  match r with
  | Ok true =>
      download_manager self1 = download_manager self
      ∧ is_Some (target_build self1) ∧ is_Some (builds self1)
  | Ok false => download_manager self1 = Some linux_Manager
  | Raise _ => download_manager self1 = download_manager self
  end.
Proof.
  assert (Hloop : ∀ test (s s' : AndroidManager) r',
    for_build_in_items test s = (s', r') →
    download_manager s' = download_manager s
    ∧ builds s' = builds s
    ∧ (is_Some (target_build s) → is_Some (target_build s'))).
  { intros test s s' r'. unfold for_build_in_items. run_M.
    destruct (builds s) as [data|] eqn:Hb; [|by intros [= <- _]].
    destruct (getitem data "items") as [items|e]; [|by intros [= <- _]].
    run_M. destruct (_ ≫= _) as [[b|]|e]; run_M; intros [= <- _]; eauto. }
  unfold select_target_build. run_M.
  destruct (String.eqb (platform self) "linux") eqn:Hp.
  { run_M. by intros [= <- <-]. }
  run_M. unfold fetch_builds at 1.
  destruct (get_builds w self (platform self)) as [data|e].
  2:{ destruct e; run_M; rewrite ?Hp; run_M; by intros [= <- <-]. }
  run_M.
  destruct (getitem data "items") as [items|e] eqn:Hitems;
    [|by intros [= <- <-]].
  run_M. destruct (len items) as [n|e]; [|by intros [= <- <-]].
  run_M. destruct (n =? 0); [by intros [= <- <-]|].
  run_M. rewrite Hitems.
  run_M. destruct (getitem0 items) as [first|e]; [|by intros [= <- <-]].
  run_M.
  destruct (for_build_in_items _ _) as [s1 [u1|e]] eqn:H1;
    apply Hloop in H1 as (Hm1 & Hb1 & Ht1);
    cbn [download_manager builds target_build set_target_build set_builds]
      in Hm1, Hb1, Ht1;
    [|by intros [= <- <-]].
  run_M.
  destruct (for_build_in_items _ s1) as [s2 [u2|e]] eqn:H2;
    apply Hloop in H2 as (Hm2 & Hb2 & Ht2);
    [|intros [= <- <-]; congruence].
  run_M.
  destruct (truthy_str _).
  - destruct (for_build_in_items _ s2) as [s3 [u3|e]] eqn:H3;
      apply Hloop in H3 as (Hm3 & Hb3 & Ht3); run_M; intros [= <- <-].
    + split; [congruence|]. split; [eauto|].
      rewrite Hb3, Hb2, Hb1. eauto.
    + congruence.
  - run_M. intros [= <- <-]. split; [congruence|]. split; [eauto|].
    rewrite Hb2, Hb1. eauto.
Qed.

(** X12.  [setup_download_manager] returns normally only with a download
    manager in place - [linux.Manager] on Linux, otherwise [v1.Manager] or
    [v2.Manager] together with a selected build - and whenever it raises or
    exits it has left [self.download_manager] as it was. *)
Theorem setup_download_manager_sets_manager (self self' : AndroidManager)
    (r : result unit) :
  setup_download_manager w self = (self', r) →
  match r with
  | Ok _ =>
      (platform self = "linux" ∧ download_manager self' = Some linux_Manager)
      ∨ (platform self ≠ "linux" ∧ is_Some (target_build self')
         ∧ (download_manager self' = Some v1_Manager
            ∨ download_manager self' = Some v2_Manager))
  | Raise _ => download_manager self' = download_manager self
  end.
Proof.
  unfold setup_download_manager. run_M.
  destruct (select_target_build w self) as [self1 [[|]|e]] eqn:Hsel.
  - pose proof (select_target_build_writes _ _ _ Hsel) as (Hm & [b Hb] & _).
    assert (Hp : platform self ≠ "linux").
    { intros Hp. revert Hsel. unfold select_target_build. run_M.
      rewrite Hp. cbn [String.eqb Ascii.eqb Bool.eqb]. run_M. done. }
    rewrite (select_download_manager_eval _ _ _ Hb).
    destruct (_ ≫= _) as [g|e]; [|intros [= <- <-]; done].
    destruct (eq_int g 1).
    { intros [= <- <-]. right. split; [done|].
      cbn [target_build download_manager set_download_manager].
      rewrite Hb. eauto. }
    destruct (eq_int g 2); intros [= <- <-]; [|done].
    right. split; [done|].
    cbn [target_build download_manager set_download_manager].
    rewrite Hb. eauto.
  - pose proof (select_target_build_writes _ _ _ Hsel) as Hm.
    run_M. intros [= <- <-]. left. split; [|done].
    revert Hsel. unfold select_target_build. run_M.
    destruct (String.eqb_spec (platform self) "linux") as [|Hne]; [done|].
    run_M. unfold fetch_builds at 1.
    destruct (get_builds w self (platform self)) as [data|e].
    2:{ destruct e; run_M;
          try (destruct (String.eqb_spec (platform self) "linux"); [done|]);
          run_M; done. }
    run_M. destruct (getitem data "items") as [items|e] eqn:Hitems; [|done].
    run_M. destruct (len items) as [n|e]; [|done].
    run_M. destruct (n =? 0); [done|].
    run_M. rewrite Hitems.
    run_M. destruct (getitem0 items) as [first|e]; [|done].
    run_M. destruct (for_build_in_items _ _) as [s1 [u1|e]]; [|done].
    run_M. destruct (for_build_in_items _ s1) as [s2 [u2|e]]; [|done].
    run_M. destruct (truthy_str _); [|by run_M].
    destruct (for_build_in_items _ s2) as [s3 [u3|e]]; by run_M.
  - intros [= <- <-]. apply (select_target_build_writes _ _ _ Hsel).
Qed.

Lemma first_passing_match test (l : list pyval) (b : pyval) :
  first_passing test l b → first_match test l = Ok (Some b).
Proof.
  intros (l1 & l2 & -> & Hb & Hl1).
  induction Hl1 as [|x l1 Hx _ IH]; cbn [app first_match mbind result_bind].
  - by rewrite Hb.
  - by rewrite Hx.
Qed.

Lemma none_passing_match test (l : list pyval) :
  none_passing test l → first_match test l = Ok None.
Proof.
  induction 1 as [|x l Hx _ IH]; [done|].
  cbn [first_match mbind result_bind]. by rewrite Hx.
Qed.

(** A test that agrees with [test] wherever [test] returns finds the same. *)
Lemma first_match_transfer test test' (l : list pyval) found :
  (∀ x v, test x = Ok v → test' x = Ok v) →
  first_match test l = Ok found → first_match test' l = Ok found.
Proof.
  intros Hagree. induction l as [|x l IH]; [done|].
  cbn [first_match mbind result_bind].
  destruct (test x) as [v|e] eqn:Hx; [|done].
  rewrite (Hagree _ _ Hx). cbn [mbind result_bind]. by destruct v.
Qed.

Lemma on_branch_get_agrees branch (x : pyval) v :
  on_branch branch x = Ok v → on_branch_get branch x = Ok v.
Proof.
  unfold on_branch, on_branch_get.
  destruct (getitem x "branch") as [b|e] eqn:Hb; [|done].
  by rewrite (get_of_getitem _ _ _ PNone Hb).
Qed.

Lemma has_build_id_get_agrees id (x : pyval) v :
  has_build_id id x = Ok v → has_build_id_get id x = Ok v.
Proof.
  unfold has_build_id, has_build_id_get.
  destruct (getitem x "build_id") as [b|e] eqn:Hb; [|done].
  by rewrite (get_of_getitem _ _ _ PNone Hb).
Qed.

(** A selection that succeeds has run its three loops to the end. *)
Lemma select_target_build_loops (self self1 : AndroidManager) data l :
  platform self ≠ "linux" →
  get_builds w self (platform self) = Ok data →
  getitem data "items" = Ok (PList l) →
  select_target_build w self = (self1, Ok true) →
  ∃ first rest found1 found2 found3,
    l = first :: rest
    ∧ first_match is_default_branch l = Ok found1
    ∧ first_match (on_branch (branch self)) l = Ok found2
    ∧ (if truthy_str (Args.build (arguments self))
       then first_match (has_build_id (Args.build (arguments self))) l
       else Ok None) = Ok found3
    ∧ target_build self1
      = Some (default (default (default first found1) found2) found3).
Proof.
  intros Hp Hget Hitems. destruct l as [|first rest].
  { apply String.eqb_neq in Hp. unfold select_target_build.
    run_M. rewrite Hp. run_M. unfold fetch_builds at 1. rewrite Hget.
    run_M. rewrite Hitems. by run_M. }
  rewrite (select_target_build_eval _ _ _ _ _ Hp Hget Hitems). cbv zeta.
  destruct (first_match is_default_branch _) as [found1|e]; [|done].
  destruct (first_match (on_branch _) _) as [found2|e]; [|done].
  destruct (truthy_str _).
  - destruct (first_match (has_build_id _) _) as [found3|e]; [|done].
    intros [= <-]. exists first, rest, found1, found2, found3.
    repeat split; try done. by destruct found1, found2, found3.
  - intros [= <-]. exists first, rest, found1, found2, None.
    repeat split; try done. by destruct found1, found2.
Qed.

Lemma first_passing_elem test (l : list pyval) (b : pyval) :
  first_passing test l b → b ∈ l.
Proof. intros (l1 & l2 & -> & _). set_solver. Qed.

(** X13.  The order of precedence of [setup_download_manager], on every list
    of builds.  When the selection succeeds, the build it selects is one of
    the list, namely: the first build with the given build id, if an id is
    given and a build has it; otherwise the first build on the given branch
    ([None] meaning the default branch), if there is one; otherwise the first
    build on the default branch, if there is one; otherwise the first build
    of the list. *)
Theorem target_build_precedence (self self1 : AndroidManager) data l :
  platform self ≠ "linux" →
  get_builds w self (platform self) = Ok data →
  getitem data "items" = Ok (PList l) →
  select_target_build w self = (self1, Ok true) →
  let by_id := has_build_id (Args.build (arguments self)) in
  let no_id :=
    truthy_str (Args.build (arguments self)) = false ∨ none_passing by_id l in
  ∃ b,
    target_build self1 = Some b ∧ b ∈ l
    ∧ ((truthy_str (Args.build (arguments self)) = true
        ∧ first_passing by_id l b)
       ∨ (no_id ∧ first_passing (on_branch (branch self)) l b)
       ∨ (no_id ∧ none_passing (on_branch (branch self)) l
          ∧ first_passing is_default_branch l b)
       ∨ (no_id ∧ none_passing (on_branch (branch self)) l
          ∧ none_passing is_default_branch l ∧ head l = Some b)).
Proof.
  intros Hp Hget Hitems Hsel.
  destruct (select_target_build_loops _ _ _ _ Hp Hget Hitems Hsel)
    as (first & rest & found1 & found2 & found3 & -> & H1 & H2 & H3 & ->).
  cbv zeta.
  assert (Hno : found3 = None →
    truthy_str (Args.build (arguments self)) = false
    ∨ none_passing (has_build_id (Args.build (arguments self))) (first :: rest)).
  { intros ->. destruct (truthy_str _); [|by left].
    right. by apply first_match_None. }
  destruct found3 as [b3|].
  { exists b3. destruct (truthy_str _) eqn:Hb; [|done].
    apply first_match_Some in H3.
    split; [done|]. split; [by eapply first_passing_elem|]. by left. }
  specialize (Hno eq_refl).
  destruct found2 as [b2|].
  { exists b2. apply first_match_Some in H2.
    split; [done|]. split; [by eapply first_passing_elem|]. right. by left. }
  apply first_match_None in H2.
  destruct found1 as [b1|].
  { exists b1. apply first_match_Some in H1.
    split; [done|]. split; [by eapply first_passing_elem|].
    right. right. by left. }
  apply first_match_None in H1.
  exists first. split; [done|]. split; [left|]. do 3 right. done.
Qed.

(** What [download] stores in [self.target_build] when [setup_download_manager]
    would select successfully: the same, without the loop over the default
    branch. *)
Lemma download_after_loops (self : AndroidManager) data first rest
    found2 found3 :
  platform self ≠ "linux" →
  get_builds w self (platform self) = Ok data →
  getitem data "items" = Ok (PList (first :: rest)) →
  first_match (on_branch (branch self)) (first :: rest) = Ok found2 →
  (if truthy_str (Args.build (arguments self))
   then first_match (has_build_id (Args.build (arguments self))) (first :: rest)
   else Ok None) = Ok found3 →
  target_build (fst (download w self))
  = Some (default (default first found2) found3).
Proof.
  intros Hp Hget Hitems H2 H3.
  apply (download_target_build w self data first rest found2 found3 Hp Hget
           Hitems).
  - by apply (first_match_transfer _ _ _ _ (on_branch_get_agrees _)).
  - destruct (truthy_str _); [|done].
    by apply (first_match_transfer _ _ _ _ (has_build_id_get_agrees _)).
Qed.

(** X14.  [download] selects the build that [setup_download_manager] selects
    whenever no branch is asked for, or a listed build is on the branch
    asked for, or a listed build has the build id asked for. *)
Theorem download_selects_like_setup (self self1 : AndroidManager) data l :
  platform self ≠ "linux" →
  get_builds w self (platform self) = Ok data →
  getitem data "items" = Ok (PList l) →
  select_target_build w self = (self1, Ok true) →
  branch self = None
  ∨ (∃ b, first_passing (on_branch (branch self)) l b)
  ∨ (truthy_str (Args.build (arguments self)) = true
     ∧ ∃ b, first_passing (has_build_id (Args.build (arguments self))) l b) →
  target_build (fst (download w self)) = target_build self1.
Proof.
  intros Hp Hget Hitems Hsel Hcase.
  destruct (select_target_build_loops _ _ _ _ Hp Hget Hitems Hsel)
    as (first & rest & found1 & found2 & found3 & -> & H1 & H2 & H3 & ->).
  rewrite (download_after_loops _ _ _ _ _ _ Hp Hget Hitems H2 H3).
  destruct Hcase as [Hnone|[[b Hb]|[Hid [b Hb]]]].
  - rewrite Hnone in H2. change (on_branch None) with is_default_branch in H2.
    rewrite H1 in H2. injection H2 as <-. by destruct found1.
  - apply first_passing_match in Hb. rewrite H2 in Hb. by injection Hb as ->.
  - apply first_passing_match in Hb. rewrite Hid, Hb in H3.
    by injection H3 as <-.
Qed.

(** X15.  Where they part: when a branch is asked for that no listed build is
    on, and no build id decides, [setup_download_manager] falls back to the
    first build of the default branch, [download] to the first build of the
    list, whatever its branch. *)
Theorem download_falls_back_to_first_build (self self1 : AndroidManager)
    data l (d : pyval) :
  platform self ≠ "linux" →
  get_builds w self (platform self) = Ok data →
  getitem data "items" = Ok (PList l) →
  select_target_build w self = (self1, Ok true) →
  none_passing (on_branch (branch self)) l →
  truthy_str (Args.build (arguments self)) = false
  ∨ none_passing (has_build_id (Args.build (arguments self))) l →
  first_passing is_default_branch l d →
  target_build self1 = Some d
  ∧ target_build (fst (download w self)) = head l.
Proof.
  intros Hp Hget Hitems Hsel Hbranch Hid Hd.
  destruct (select_target_build_loops _ _ _ _ Hp Hget Hitems Hsel)
    as (first & rest & found1 & found2 & found3 & -> & H1 & H2 & H3 & ->).
  rewrite (download_after_loops _ _ _ _ _ _ Hp Hget Hitems H2 H3).
  apply first_passing_match in Hd. rewrite H1 in Hd. injection Hd as ->.
  apply none_passing_match in Hbranch. rewrite H2 in Hbranch.
  injection Hbranch as ->.
  assert (found3 = None) as ->; [|done].
  destruct Hid as [Hid|Hid].
  - rewrite Hid in H3. by injection H3.
  - apply none_passing_match in Hid. destruct (truthy_str _); congruence.
Qed.

(** X16.  [setup_download_manager] reads the manifest cache only for a
    repair: when [is_verifying] is false, what it assigns to [self] and
    what it returns or raises are the same whatever files are on disk. *)
Theorem manifest_cache_read_only_when_verifying (self : AndroidManager)
    (files' : gmap string (result pyval)) :
  is_verifying self = false →
  setup_download_manager (with_files w files') self
  = setup_download_manager w self.
Proof.
  intros Hver.
  unfold setup_download_manager. run_M.
  change (select_target_build (with_files w files'))
    with (select_target_build w).
  destruct (select_target_build w self) as [self1 [[|]|e]] eqn:Hsel; [|done..].
  destruct (select_target_build_frame _ _ _ _ Hsel) as (_ & _ & Hv & _).
  unfold select_download_manager. run_M.
  destruct (target_build self1) as [build|]; [|done].
  destruct (getitem build "generation") as [g|e]; [|done].
  run_M. unfold cached_generation. by rewrite Hv, Hver.
Qed.

(** X17.  A cached manifest that cannot be used stops a repair: when
    [is_verifying] is true and the manifest file exists but cannot be read
    or decoded, has no ['version'], or has one that [int] rejects, that
    exception leaves [setup_download_manager] and no download manager is
    set, whatever generation the selected build reports. *)
Theorem unusable_cached_manifest_aborts (self self1 : AndroidManager)
    (build remote : pyval) (content : result pyval) (e : exn) :
  is_verifying self = true →
  files w !! os_path_join MANIFESTS_DIR (game_id self) = Some content →
  (manifest_data ← content;
   version ← getitem manifest_data "version";
   int version) = Raise e →
  select_target_build w self = (self1, Ok true) →
  target_build self1 = Some build →
  getitem build "generation" = Ok remote →
  setup_download_manager w self = (self1, Raise e)
  ∧ download_manager self1 = download_manager self.
Proof.
  intros Hver Hfile Hbad Hsel Htb Hgen.
  destruct (select_target_build_frame _ _ _ _ Hsel) as (_ & _ & Hv & Hid & _).
  pose proof (select_target_build_writes _ _ _ Hsel) as (Hm & _).
  split; [|done].
  rewrite (setup_download_manager_eval _ _ _ Hsel).
  rewrite (select_download_manager_eval _ _ _ Htb), Hgen.
  cbn [mbind result_bind]. unfold cached_generation.
  rewrite Hv, Hver, Hid, Hfile.
  destruct content as [manifest_data|e0]; cbn [mbind result_bind] in *;
    [|by injection Hbad as ->].
  destruct (getitem manifest_data "version") as [version|e1];
    cbn [mbind result_bind] in *; [|by injection Hbad as ->].
  by rewrite Hbad.
Qed.

End SelectionRules.

(* ===================================================================== *)
(** * The renderers of the manifest test script                           *)
(* ===================================================================== *)

Section RenderFacts.
Import Py Render.
Context `{!builtins}.

Lemma hex_byte_roundtrip (b : byte) :
  (hi ← digit_value (hex_digit (Byte.to_N b / 16));
   lo ← digit_value (hex_digit (Byte.to_N b mod 16));
   Byte.of_N (16 * hi + lo)) = Some b.
Proof. destruct b; vm_compute; reflexivity. Qed.

(** X18.  [bytes_to_hex] writes two lower-case hexadecimal digits per byte,
    from which the bytes can be read back ([bytes.fromhex]); so different
    byte strings never give the same text.  [None] and the empty byte string
    both give the empty text. *)
Theorem bytes_to_hex_roundtrip (data : list byte) :
  fromhex (bytes_to_hex (Some data)) = Some data
  ∧ String.length (bytes_to_hex (Some data)) = (2 * length data)%nat
  ∧ (∀ data', bytes_to_hex (Some data) = bytes_to_hex (Some data') →
              data = data')
  ∧ bytes_to_hex None = bytes_to_hex (Some []).
Proof.
  assert (Hhex : ∀ l, bytes_to_hex (Some l) = hex l) by (by intros []).
  assert (Hround : ∀ l, fromhex (hex l) = Some l).
  { induction l as [|b l IH]; [done|]. cbn [hex fromhex].
    pose proof (hex_byte_roundtrip b) as Hb.
    destruct (digit_value (hex_digit (Byte.to_N b / 16))) as [hi|]; [|done].
    destruct (digit_value (hex_digit (Byte.to_N b mod 16))) as [lo|]; [|done].
    cbn [mbind option_bind] in *. rewrite Hb. cbn [mbind option_bind].
    by rewrite IH. }
  rewrite !Hhex. split; [apply Hround|]. split; [|split; [|done]].
  - induction data as [|b l IH]; [done|]. cbn [hex String.length length].
    rewrite IH. lia.
  - intros data' Heq. rewrite !Hhex in Heq.
    apply (f_equal fromhex) in Heq. rewrite !Hround in Heq. congruence.
Qed.

Lemma summary_fields (m : Manifest.t) :
  let s := create_manifest_summary m in
  getitem s "chunkCount" = Ok (PInt (Z.of_nat (length (chunks_of m))))
  ∧ getitem s "totalChunks" = Ok (PInt (Z.of_nat (length (chunks_of m))))
  ∧ getitem s "fileCount" = Ok (PInt (Z.of_nat (length (files_of m))))
  ∧ getitem s "totalFiles" = Ok (PInt (Z.of_nat (length (files_of m))))
  ∧ getitem s "downloadSize"
    = Ok (PInt (sum (ChunkInfo.file_size <$> chunks_of m)))
  ∧ getitem s "installedSize"
    = Ok (PInt (sum (FileManifest.file_size <$> files_of m))).
Proof.
  unfold chunks_of, files_of.
  destruct m as [v hs c meta [cdl|] [fml|] cf]; repeat split; reflexivity.
Qed.

Lemma full_lists (m : Manifest.t) :
  listed (serialize_manifest m) "chunkDataList" "chunks"
  = Ok (serialize_chunk_info <$> chunks_of m)
  ∧ listed (serialize_manifest m) "fileManifestList" "files"
    = Ok (serialize_file_manifest <$> files_of m).
Proof.
  unfold chunks_of, files_of.
  destruct m as [v hs c meta [cdl|] [fml|] cf]; split; reflexivity.
Qed.

Lemma rendered_sizes (m : Manifest.t) :
  int_at "fileSize" <$> (serialize_chunk_info <$> chunks_of m)
  = ChunkInfo.file_size <$> chunks_of m
  ∧ int_at "fileSize" <$> (serialize_file_manifest <$> files_of m)
    = FileManifest.file_size <$> files_of m.
Proof.
  split; rewrite <- list_fmap_compose; apply list_fmap_ext;
    intros _ x _; reflexivity.
Qed.

(** X19.  The numbers of the summary can be recomputed from the full
    rendering of the same manifest: [chunkCount] and [totalChunks] are the
    number of entries under [chunkDataList.chunks] (0 when that part is
    [None]) - not the manifest's own [count] -, [downloadSize] is the sum of
    their [fileSize]; and likewise [fileCount], [totalFiles] and
    [installedSize] for [fileManifestList.files]. *)
Theorem summary_numbers_match_full (m : Manifest.t) :
  let summary := create_manifest_summary m in
  let full := serialize_manifest m in
  ∃ chunks files,
    listed full "chunkDataList" "chunks" = Ok chunks
    ∧ listed full "fileManifestList" "files" = Ok files
    ∧ getitem summary "chunkCount" = Ok (PInt (Z.of_nat (length chunks)))
    ∧ getitem summary "totalChunks" = Ok (PInt (Z.of_nat (length chunks)))
    ∧ getitem summary "downloadSize"
      = Ok (PInt (sum (int_at "fileSize" <$> chunks)))
    ∧ getitem summary "fileCount" = Ok (PInt (Z.of_nat (length files)))
    ∧ getitem summary "totalFiles" = Ok (PInt (Z.of_nat (length files)))
    ∧ getitem summary "installedSize"
      = Ok (PInt (sum (int_at "fileSize" <$> files))).
Proof.
  cbv zeta.
  destruct (full_lists m) as [Hchunks Hfiles].
  destruct (summary_fields m) as (Hcc & Htc & Hfc & Htf & Hds & His).
  destruct (rendered_sizes m) as [Hcs Hfs].
  exists (serialize_chunk_info <$> chunks_of m),
    (serialize_file_manifest <$> files_of m).
  rewrite !length_fmap, Hcs, Hfs. done.
Qed.

(** X20.  The samples of the summary are the head of the full rendering:
    [sampleChunks] and [sampleFiles] have an entry for each of the first
    five chunks and files (for all of them when there are fewer), in order,
    and each entry repeats what the full rendering says of that chunk
    ([guidStr], [hash], [fileSize], [groupNum]) or file ([filename], [hash],
    [fileSize], the number of its [chunkParts]). *)
Theorem summary_samples_match_full (m : Manifest.t) :
  let summary := create_manifest_summary m in
  let full := serialize_manifest m in
  ∃ chunks files sample_chunks sample_files,
    listed full "chunkDataList" "chunks" = Ok chunks
    ∧ listed full "fileManifestList" "files" = Ok files
    ∧ (l ← getitem summary "sampleChunks"; iter l) = Ok sample_chunks
    ∧ (l ← getitem summary "sampleFiles"; iter l) = Ok sample_files
    ∧ length sample_chunks = (5 `min` length chunks)%nat
    ∧ length sample_files = (5 `min` length files)%nat
    ∧ (∀ i sc, sample_chunks !! i = Some sc →
         ∃ fc, chunks !! i = Some fc
               ∧ getitem sc "guid" = getitem fc "guidStr"
               ∧ getitem sc "hash" = getitem fc "hash"
               ∧ getitem sc "size" = getitem fc "fileSize"
               ∧ getitem sc "groupNum" = getitem fc "groupNum")
    ∧ (∀ i sf, sample_files !! i = Some sf →
         ∃ ff, files !! i = Some ff
               ∧ getitem sf "filename" = getitem ff "filename"
               ∧ getitem sf "hash" = getitem ff "hash"
               ∧ getitem sf "size" = getitem ff "fileSize"
               ∧ getitem sf "chunkParts"
                 = (l ← getitem ff "chunkParts"; n ← len l; Ok (PInt n))).
Proof.
  cbv zeta.
  destruct (full_lists m) as [Hchunks Hfiles].
  exists (serialize_chunk_info <$> chunks_of m),
    (serialize_file_manifest <$> files_of m).
  eexists _, _.
  split; [done|]. split; [done|].
  split; [unfold chunks_of; destruct m as [v hs c meta [cdl|] [fml|] cf];
          reflexivity|].
  split; [unfold files_of; destruct m as [v hs c meta [cdl|] [fml|] cf];
          reflexivity|].
  assert (Hc : match Manifest.chunk_data_list m with
               | Some cdl => take 5 (CDL.elements cdl)
               | None => []
               end = take 5 (chunks_of m))
    by (unfold chunks_of; by destruct (Manifest.chunk_data_list m)).
  assert (Hf : match Manifest.file_manifest_list m with
               | Some fml => take 5 (FML.elements fml)
               | None => []
               end = take 5 (files_of m))
    by (unfold files_of; by destruct (Manifest.file_manifest_list m)).
  rewrite Hc, Hf, !length_fmap, !length_take.
  split; [done|]. split; [done|]. split.
  - intros i sc Hsc. rewrite list_lookup_fmap in Hsc.
    destruct (take 5 (chunks_of m) !! i) as [c|] eqn:Hi; [|done].
    injection Hsc as <-. exists (serialize_chunk_info c).
    split; [|by repeat split].
    rewrite list_lookup_fmap. rewrite lookup_take_Some in Hi.
    by destruct Hi as [-> _].
  - intros i sf Hsf. rewrite list_lookup_fmap in Hsf.
    destruct (take 5 (files_of m) !! i) as [f|] eqn:Hi; [|done].
    injection Hsf as <-. exists (serialize_file_manifest f).
    split.
    { rewrite list_lookup_fmap. rewrite lookup_take_Some in Hi.
      by destruct Hi as [-> _]. }
    repeat split; try reflexivity.
    change (getitem (serialize_file_manifest f) "chunkParts")
      with (Ok (PList (serialize_chunk_part <$> FileManifest.chunk_parts f))
            : result pyval).
    cbn [mbind result_bind len]. by rewrite length_fmap.
Qed.

Section script.
Variable read_all : ManifestTest.decoder → list byte → result Manifest.t.
Variable read_file : string → result (list byte).

(** X21.  The script from end to end.  Given a path and no format, [main]
    prints the summary of the manifest that the decoder chosen by the first
    four bytes returns; given a format other than "summary", the full
    rendering.  With no path it prints the usage line and exits with status
    1 without reading a file, and every [Exception] from reading or decoding
    ends in exit status 1 with nothing printed on standard output. *)
Theorem script_main (prog path : string) (rest : list string) :
  (∀ argv, (length argv < 2)%nat →
     main read_all read_file argv = (Raise (SystemExit 1), [Usage]))
  ∧ (∀ data m,
       read_file path = Ok data →
       read_all (ManifestTest.detect data) data = Ok m →
       main read_all read_file [prog; path]
       = (Ok (), [Result (create_manifest_summary m)])
       ∧ (∀ fmt, fmt ≠ "summary" →
            main read_all read_file (prog :: path :: fmt :: rest)
            = (Ok (), [Result (serialize_manifest m)])))
  ∧ (∀ e, is_Exception e = true →
       read_file path = Raise e
       ∨ (∃ data, read_file path = Ok data
                  ∧ read_all (ManifestTest.detect data) data = Raise e) →
       main read_all read_file (prog :: path :: rest)
       = (Raise (SystemExit 1), [Error e])).
Proof.
  split; [|split].
  - intros [|? [|? ?]]; simpl; (done || lia).
  - intros data m Hread Hdec.
    unfold main, parse, ManifestTest.parse_and_serialize.
    rewrite Hread. cbn [mbind result_bind]. rewrite Hdec.
    cbn [mbind result_bind]. split; [done|].
    intros fmt Hfmt%String.eqb_neq. by rewrite Hfmt.
  - intros e He Hfail.
    unfold main, parse, ManifestTest.parse_and_serialize.
    destruct Hfail as [Hread|(data & Hread & Hdec)]; rewrite Hread;
      cbn [mbind result_bind]; rewrite ?Hdec; cbn [mbind result_bind];
      by rewrite He.
Qed.

End script.

End RenderFacts.

(* ===================================================================== *)
(** * The command line                                                    *)
(* ===================================================================== *)

Section CliFacts.
Import Py Api Manager Cli.
Context `{!constants} `{!builtins}.

(** X22.  Every subcommand that the parser accepts has a handler, and
    "update", which no parser defines, is the only other name that has one.
    The commands "download", "repair" and "update" all run
    [AndroidManager.download]; only "info" runs [calculate_download_size]
    (and with it [setup_download_manager]). *)
Theorem dispatch_table (command : string) :
  (is_Some (dispatch command) ↔ command ∈ subcommands ∨ command = "update")
  ∧ (dispatch command = Some Download_manager_download
     ↔ command ∈ ["download"; "repair"; "update"])
  ∧ (dispatch command = Some Calculate_download_size ↔ command = "info").
Proof.
  destruct (decide (command ∈ "update" :: subcommands)) as [Hin|Hout].
  - unfold subcommands in Hin.
    repeat (apply elem_of_cons in Hin as [->|Hin];
            [match goal with
             | |- context [dispatch ?c] =>
                 let v := eval vm_compute in (dispatch c) in
                 change (dispatch c) with v
             end;
             unfold subcommands;
             repeat split; intros ?; first [done | by eauto | set_solver] |]).
    by apply elem_of_nil in Hin.
  - assert (dispatch command = None) as ->.
    { unfold dispatch, switcher. cbv zeta.
      repeat match goal with
      | |- context [String.eqb command ?s] =>
          destruct (String.eqb_spec command s) as [->|_];
          [exfalso; apply Hout; unfold subcommands; set_unfold; tauto|]
      end.
      rewrite bool_decide_eq_false_2; [done|].
      intros Hin. apply Hout. unfold subcommands. set_unfold. tauto. }
    unfold subcommands in *.
    repeat split; try done; try (by intros [? ?]);
      intros Hin; exfalso; apply Hout; set_unfold; tauto.
Qed.

(** X23.  [get_game_ids] always leaves exactly one JSON value on standard
    output and never raises an [Exception]: the value is the empty array
    unless credentials are there, the user-data request is answered [ok]
    with a JSON object, and then it is what that object holds under ['owned']
    (the empty array if nothing).  Only an exception that is no [Exception]
    gets through, and then nothing has been printed.  And the list is
    printed when it is there: with credentials that are a non-empty object
    (whose ['access_token'], if any, can be sliced) and an [ok] response
    whose body is an object, the function prints what the body holds under
    ['owned'], indented when [pretty] is set, and returns. *)
Theorem get_game_ids_prints_once (credentials : result pyval)
    (session_get : string → result response) (pretty : bool) :
  match get_game_ids credentials session_get pretty with
  | (Ok _, out) =>
      ∃ v p,
        out = [Print v p]
        ∧ (v = PList []
           ∨ ∃ r d,
               session_get (GOG_EMBED +:+ "/user/data/games") = Ok r
               ∧ ok r = true ∧ json r = Ok (PDict d)
               ∧ v = default (PList []) (d !! "owned") ∧ p = pretty)
  | (Raise e, out) => is_Exception e = false ∧ out = []
  end
  ∧ (∀ c token r d,
       credentials = Ok c → truthy c = true →
       get c "access_token" (PStr "") = Ok token → sliceable token = true →
       session_get (GOG_EMBED +:+ "/user/data/games") = Ok r →
       ok r = true → json r = Ok (PDict d) →
       get_game_ids credentials session_get pretty
       = (Ok (), [Print (default (PList []) (d !! "owned")) pretty])).
Proof.
  split.
  2:{ intros c token r d -> Hc Htoken Hslice Hget Hok Hjson.
      unfold get_game_ids. rewrite Hc. cbn [negb].
      rewrite Htoken. cbn [mbind result_bind]. rewrite Hslice, Hget, Hok.
      cbn [negb]. rewrite Hjson. cbn [mbind result_bind get].
      by destruct (d !! "owned"). }
  unfold get_game_ids.
  destruct credentials as [c|e]; [|destruct (is_Exception e) eqn:?; eauto].
  destruct (truthy c); cbn [negb]; [|eauto].
  destruct (_ ≫= _) as [[]|e]; [|destruct (is_Exception e) eqn:?; eauto].
  destruct (session_get _) as [r|e] eqn:Hget;
    [|destruct (is_Exception e) eqn:?; eauto].
  destruct (ok r) eqn:Hok; cbn [negb]; [|eauto].
  destruct (json r) as [user_data|e] eqn:Hjson; cbn [mbind result_bind];
    [|destruct (is_Exception e) eqn:?; eauto].
  destruct user_data as [| | | | |d]; cbn [get is_Exception]; eauto.
  eexists _, _. split; [done|]. right. by exists r, d.
Qed.

Section size.
Variable w : world.
Variable get_download_size : manager → result pyval.

Lemma select_target_build_builds (self self1 : AndroidManager) :
  select_target_build w self = (self1, Ok true) →
  ∃ data, get_builds w self (platform self) = Ok data
          ∧ builds self1 = Some data.
Proof.
  assert (Hloop : ∀ test (s s' : AndroidManager) r',
    for_build_in_items test s = (s', r') → builds s' = builds s).
  { intros test s s' r'. unfold for_build_in_items. run_M.
    destruct (builds s) as [data|] eqn:Hb; [|by intros [= <- _]].
    destruct (getitem data "items") as [items|e]; [|by intros [= <- _]].
    run_M. destruct (_ ≫= _) as [[b|]|e]; run_M; intros [= <- _]; eauto. }
  unfold select_target_build. run_M.
  destruct (String.eqb (platform self) "linux") eqn:Hp; [by run_M|].
  run_M. unfold fetch_builds at 1.
  destruct (get_builds w self (platform self)) as [data|e].
  2:{ destruct e; run_M; rewrite ?Hp; run_M; done. }
  run_M.
  destruct (getitem data "items") as [items|e] eqn:Hitems; [|done].
  run_M. destruct (len items) as [n|e]; [|done].
  run_M. destruct (n =? 0); [done|].
  run_M. rewrite Hitems.
  run_M. destruct (getitem0 items) as [first|e]; [|done].
  run_M.
  destruct (for_build_in_items _ _) as [s1 [u1|e]] eqn:H1; [|done].
  apply Hloop in H1. cbn [builds set_target_build set_builds] in H1.
  run_M.
  destruct (for_build_in_items _ s1) as [s2 [u2|e]] eqn:H2; [|done].
  apply Hloop in H2.
  run_M.
  destruct (truthy_str _).
  - destruct (for_build_in_items _ s2) as [s3 [u3|e]] eqn:H3; [|by run_M].
    apply Hloop in H3. run_M. intros [= <-]. exists data.
    split; [done|]. congruence.
  - run_M. intros [= <-]. exists data. split; [done|]. congruence.
Qed.

(** X24.  [calculate_download_size] prints at most once and only when
    everything before has succeeded: what it prints is the object returned
    by [get_download_size] with ['builds'] set to [self.builds] - on a
    platform other than Linux the body of the builds response, as
    [get_builds] returned it.  When it raises, it has printed nothing. *)
Theorem calculate_download_size_prints (self self1 : AndroidManager)
    (r : result unit) (out : list output) :
  calculate_download_size w get_download_size self = (self1, r, out) →
  match r with
  | Ok _ =>
      ∃ m d data,
        setup_download_manager w self = (self1, Ok ())
        ∧ download_manager self1 = Some m
        ∧ get_download_size m = Ok (PDict d)
        ∧ builds self1 = Some data
        ∧ out = [Print (PDict (<["builds" := data]> d)) false]
        ∧ (platform self ≠ "linux" →
           get_builds w self (platform self) = Ok data)
  | Raise _ => out = []
  end.
Proof.
  unfold calculate_download_size.
  destruct (setup_download_manager w self) as [s1 [[]|e]] eqn:Hsetup;
    [|by intros [= <- <- <-]].
  destruct (download_manager s1) as [m|] eqn:Hm; [|by intros [= <- <- <-]].
  destruct (get_download_size m) as [resp|e] eqn:Hsize;
    [|by intros [= <- <- <-]].
  destruct (builds s1) as [data|] eqn:Hb; [|by intros [= <- <- <-]].
  destruct resp as [| | | | |d]; try by intros [= <- <- <-].
  intros [= <- <- <-]. exists m, d, data. repeat split; try done.
  intros Hp. revert Hsetup. unfold setup_download_manager. run_M.
  destruct (select_target_build w self) as [s0 [[|]|e]] eqn:Hsel; [| |done].
  - destruct (select_target_build_builds _ _ Hsel) as (data' & Hget & Hb').
    unfold select_download_manager. run_M.
    destruct (target_build s0) as [build|]; [|done].
    destruct (getitem build "generation") as [g0|e]; [|done].
    run_M. destruct (cached_generation w s0 g0) as [g|e]; [|done].
    destruct (negb _); [done|]. destruct (eq_int g 1).
    { run_M. intros [= <-]. cbn [builds set_download_manager] in Hb.
      congruence. }
    destruct (eq_int g 2); run_M; intros [= <-]; [|congruence].
    cbn [builds set_download_manager] in Hb. congruence.
  - exfalso. revert Hsel. unfold select_target_build. run_M.
    apply String.eqb_neq in Hp. rewrite Hp.
    run_M. unfold fetch_builds at 1.
    destruct (get_builds w self (platform self)) as [data'|e].
    2:{ destruct e; run_M; rewrite ?Hp; run_M; done. }
    run_M. destruct (getitem data' "items") as [items|e] eqn:Hitems; [|done].
    run_M. destruct (len items) as [n|e]; [|done].
    run_M. destruct (n =? 0); [done|].
    run_M. rewrite Hitems.
    run_M. destruct (getitem0 items) as [first|e]; [|done].
    run_M. destruct (for_build_in_items _ _) as [t1 [u1|e]]; [|done].
    run_M. destruct (for_build_in_items _ t1) as [t2 [u2|e]]; [|done].
    run_M. destruct (truthy_str _); [|by run_M].
    destruct (for_build_in_items _ t2) as [t3 [u3|e]]; by run_M.
Qed.

End size.

End CliFacts.

(* ===================================================================== *)
(** * The further statements at concrete inputs                           *)
(* ===================================================================== *)

Section MoreInstances.
Import Py Api Manager Run Select Scenario Cli.

Local Abbreviation game := "1207658924".
Local Abbreviation user_data_url := "https://embed.gog.com/user/data/games".




Lemma get_secure_link_total_backoff_witness :
  ∃ evs,
    get_secure_link (H := gog) down game "" 2 None 0 (Z.of_nat 5) []
    = (Ok (PList []), [] ++ evs)
    ∧ issued evs = 5%nat
    ∧ (slept evs == 0.2 * (2 ^ Z.of_nat 5 - 1))%Q.
Proof.
  apply (@get_secure_link_total_backoff gog down game "" 2 None 5 []).
  - lia.
  - intros i Hi. destruct i as [|i]; simpl; [done|discriminate].
Defined.

Lemma get_secure_link_value_origin_witness :
  PList [PStr "https://cdn.gog.com/secure/1"] = PList []
  ∨ ∃ n r d,
      recovering n (secure_link_url (H := gog) game "" 2 None) = Ok r
      ∧ status_code r = 200 ∧ json r = Ok (PDict d)
      ∧ PList [PStr "https://cdn.gog.com/secure/1"]
        = default (PList []) (d !! "urls").
Proof.
  apply (@get_secure_link_value_origin gog recovering game "" 2 None 0 3 []).
  vm_compute. reflexivity.
Defined.

Lemma get_user_data_returns_None_or_dict_witness :
  ∃ r,
    library (issued []) user_data_url = Ok r
    ∧ (if ok r then json r = Ok (PDict user_data)
                    ∧ ∃ d, PDict user_data = PDict d
       else PDict user_data = PNone)
    ∧ issued [Log WARNING; Log INFO; Request user_data_url; Log DEBUG; Log DEBUG]
      = S (issued [])
    ∧ Request user_data_url
      ∈ [Log WARNING; Log INFO; Request user_data_url; Log DEBUG; Log DEBUG].
Proof.
  apply (@get_user_data_returns_None_or_dict gog library (Ok PNone) []).
  vm_compute. reflexivity.
Defined.

Lemma does_user_own_decided_witness :
  does_user_own (H := gog) (H0 := python) library (Ok PNone) (PStr game) [] []
  = (Ok (bool_decide (game ∈ ["1207658924"; "1207658930"])),
     [PStr "1207658924"; PStr "1207658930"],
     [Log WARNING; Log INFO; Request user_data_url; Log DEBUG; Log DEBUG]).
Proof.
  apply (@does_user_own_decided gog python library (Ok PNone) (PStr game) []
           _ user_data [PInt 1207658924; PInt 1207658930]);
    vm_compute; reflexivity.
Defined.

(** The second call goes to a transport that is down, with no credentials. *)
Lemma does_user_own_cached_witness :
  does_user_own (H := gog) (H0 := python) down (Ok PNone) (PStr game)
    [PStr "1207658924"; PStr "1207658930"]
    [Log WARNING; Log INFO; Request user_data_url; Log DEBUG; Log DEBUG]
  = (Ok true, [PStr "1207658924"; PStr "1207658930"],
     [Log WARNING; Log INFO; Request user_data_url; Log DEBUG; Log DEBUG]).
Proof.
  apply (@does_user_own_cached gog python library (Ok PNone) (PStr game) []
           [Log WARNING; Log INFO; Request user_data_url; Log DEBUG; Log DEBUG]
           [PStr "1207658924"; PStr "1207658930"] true).
  - reflexivity.
  - vm_compute. reflexivity.
  - discriminate.
Defined.

Lemma does_user_own_False_needs_a_list_witness :
  ((@nil pyval) ≠ [] ∧ [PStr "1207658924"; PStr "1207658930"] = []
   ∧ str (builtins := python) (PStr "42")
     ∉ str (builtins := python) <$> (@nil pyval))
  ∨ ((@nil pyval) = [] ∧ ∃ d o gs tr1,
       get_user_data (H := gog) library (Ok PNone) [] = (Ok (PDict d), tr1)
       ∧ d !! "owned" = Some o ∧ iter o = Ok gs
       ∧ str (builtins := python) (PStr "42")
         ∉ str (builtins := python) <$> gs).
Proof.
  apply (@does_user_own_False_needs_a_list gog python library (Ok PNone)
           (PStr "42") [] [PStr "1207658924"; PStr "1207658930"] []
           [Log WARNING; Log INFO; Request user_data_url; Log DEBUG; Log DEBUG]
           (Ok false)).
  vm_compute. reflexivity.
Defined.

(** The builds endpoint of the scenario, asked for the builds of a download
    on Windows. *)
Lemma get_builds_outcome_witness :
  let w := world_of ∅ (λ _ _ _, Ok ()) in
  let self := __init__ (command_line "download" None None) in
  let response :=
    {| status_code := 200; ok := true; json := Ok builds_data |} in
  (ok response = false →
   get_builds (H := gog) w self "windows" = Raise UnsupportedPlatform)
  ∧ (∀ d total_count,
       ok response = true → json response = Ok (PDict d) →
       d !! "total_count" = Some total_count →
       get_builds (H := gog) w self "windows"
       = if eq_int total_count 0 then Raise UnsupportedPlatform
         else Ok (PDict d))
  ∧ (∀ data,
       get_builds (H := gog) w self "windows" = Ok data →
       ok response = true ∧ json response = Ok data
       ∧ ∃ d total_count,
           data = PDict d ∧ d !! "total_count" = Some total_count
           ∧ eq_int total_count 0 = false).
Proof.
  apply (@get_builds_outcome gog (world_of ∅ (λ _ _ _, Ok ()))
           (__init__ (command_line "download" None None)) "windows"
           {| status_code := 200; ok := true; json := Ok builds_data |}).
  reflexivity.
Defined.

(** A download, with a manifest on disk that a repair would read. *)
Lemma manifest_cache_read_only_when_verifying_witness :
  setup_download_manager (H := gog) (H0 := py)
    (with_files (world_of ∅ (λ _ _ _, Ok ())) (cached (PInt 1)))
    (__init__ (command_line "download" None None))
  = setup_download_manager (H := gog) (H0 := py)
      (world_of ∅ (λ _ _ _, Ok ()))
      (__init__ (command_line "download" None None)).
Proof.
  apply (@manifest_cache_read_only_when_verifying gog py
           (world_of ∅ (λ _ _ _, Ok ()))
           (__init__ (command_line "download" None None)) (cached (PInt 1))).
  reflexivity.
Defined.

Lemma unsupported_platform_exit_or_raise_witness :
  let self := __init__ (command_line "download" None None) in
  setup_download_manager (H := gog) (H0 := py) refused self
  = (self, Raise (SystemExit 1))
  ∧ download (H := gog) (H0 := py) refused self
    = (self, Raise UnsupportedPlatform).
Proof.
  apply (@unsupported_platform_exit_or_raise gog py refused
           (__init__ (command_line "download" None None)));
    [discriminate | reflexivity].
Defined.

Lemma setup_download_manager_sets_manager_witness :
  let self := __init__ (command_line "download" None None) in
  (platform self = "linux"
   ∧ download_manager
       (set_download_manager v2_Manager
          (set_target_build A (set_builds builds_data self)))
     = Some linux_Manager)
  ∨ (platform self ≠ "linux"
     ∧ is_Some (target_build
                  (set_download_manager v2_Manager
                     (set_target_build A (set_builds builds_data self))))
     ∧ (download_manager
          (set_download_manager v2_Manager
             (set_target_build A (set_builds builds_data self)))
        = Some v1_Manager
        ∨ download_manager
            (set_download_manager v2_Manager
               (set_target_build A (set_builds builds_data self)))
          = Some v2_Manager)).
Proof.
  apply (@setup_download_manager_sets_manager gog py
           (world_of ∅ (λ _ _ _, Ok ()))
           (__init__ (command_line "download" None None)) _ (Ok ())).
  vm_compute. reflexivity.
Defined.

Lemma target_build_precedence_witness :
  let self := __init__ (command_line "download" (Some "beta") None) in
  let l := [A; B; C] in
  let by_id := has_build_id (Args.build (arguments self)) in
  let no_id :=
    truthy_str (Args.build (arguments self)) = false ∨ none_passing by_id l in
  ∃ b,
    target_build (set_target_build B (set_builds builds_data self)) = Some b
    ∧ b ∈ l
    ∧ ((truthy_str (Args.build (arguments self)) = true
        ∧ first_passing by_id l b)
       ∨ (no_id ∧ first_passing (on_branch (branch self)) l b)
       ∨ (no_id ∧ none_passing (on_branch (branch self)) l
          ∧ first_passing is_default_branch l b)
       ∨ (no_id ∧ none_passing (on_branch (branch self)) l
          ∧ none_passing is_default_branch l ∧ head l = Some b)).
Proof.
  apply (@target_build_precedence gog (world_of ∅ (λ _ _ _, Ok ()))
           (__init__ (command_line "download" (Some "beta") None))
           (set_target_build B
              (set_builds builds_data
                 (__init__ (command_line "download" (Some "beta") None))))
           builds_data [A; B; C]);
    [discriminate | vm_compute; reflexivity ..].
Defined.

Lemma download_selects_like_setup_witness :
  let self := __init__ (command_line "download" (Some "beta") None) in
  target_build (fst (download (H := gog) (H0 := py)
                       (world_of ∅ (λ _ _ _, Ok ())) self))
  = target_build (set_target_build B (set_builds builds_data self)).
Proof.
  apply (@download_selects_like_setup gog py (world_of ∅ (λ _ _ _, Ok ()))
           (__init__ (command_line "download" (Some "beta") None))
           (set_target_build B
              (set_builds builds_data
                 (__init__ (command_line "download" (Some "beta") None))))
           builds_data [A; B; C]);
    [discriminate | vm_compute; reflexivity .. |].
  right. left. exists B, [A], [C].
  split; [reflexivity|]. split; [vm_compute; reflexivity|].
  constructor; [vm_compute; reflexivity | constructor].
Defined.

(** B listed before A, and a branch "nightly" that neither is on:
    [setup_download_manager] selects A, [download] selects B. *)
Lemma download_falls_back_to_first_build_witness :
  let self := __init__ (command_line "download" (Some "nightly") None) in
  target_build (fst (select_target_build (H := gog) beta_first self)) = Some A
  ∧ target_build (fst (download (H := gog) (H0 := py) beta_first self))
    = head [B; A].
Proof.
  apply (@download_falls_back_to_first_build gog py beta_first
           (__init__ (command_line "download" (Some "nightly") None))
           (fst (select_target_build (H := gog) beta_first
                   (__init__ (command_line "download" (Some "nightly") None))))
           (PDict (list_to_map
              [("total_count", PInt 2); ("items", PList [B; A])]))
           [B; A] A).
  - discriminate.
  - vm_compute. reflexivity.
  - vm_compute. reflexivity.
  - vm_compute. reflexivity.
  - repeat constructor.
  - by left.
  - exists [B], []. split; [reflexivity|]. split; [vm_compute; reflexivity|].
    constructor; [vm_compute; reflexivity | constructor].
Defined.

(** A repair with a cached manifest that has no ['version']. *)
Lemma unusable_cached_manifest_aborts_witness :
  let w : world :=
    world_of {[ "/data/gogdl/manifests/1207658924" := Ok (PDict ∅) ]}
      (λ _ _ _, Ok ()) in
  let self := __init__ (command_line "repair" None None) in
  let self1 := set_target_build A (set_builds builds_data self) in
  setup_download_manager (H := gog) (H0 := py) w self
  = (self1, Raise (KeyError "version"))
  ∧ download_manager self1 = download_manager self.
Proof.
  apply (@unusable_cached_manifest_aborts gog py
           (world_of {[ "/data/gogdl/manifests/1207658924" := Ok (PDict ∅) ]}
              (λ _ _ _, Ok ()))
           (__init__ (command_line "repair" None None))
           (set_target_build A
              (set_builds builds_data
                 (__init__ (command_line "repair" None None))))
           A (PInt 2) (Ok (PDict ∅)) (KeyError "version"));
    vm_compute; reflexivity.
Defined.

Lemma calculate_download_size_prints_witness :
  let w := world_of ∅ (λ _ _ _, Ok ()) in
  let self := __init__ (command_line "info" None None) in
  let self1 :=
    set_download_manager v2_Manager
      (set_target_build A (set_builds builds_data self)) in
  let size := λ _ : manager, Ok (PDict {[ "download_size" := PInt 1024 ]}) in
  ∃ m d data,
    setup_download_manager (H := gog) (H0 := py) w self = (self1, Ok ())
    ∧ download_manager self1 = Some m
    ∧ size m = Ok (PDict d)
    ∧ builds self1 = Some data
    ∧ [Print (PDict (<["builds" := builds_data]>
                       {[ "download_size" := PInt 1024 ]})) false]
      = [Print (PDict (<["builds" := data]> d)) false]
    ∧ (platform self ≠ "linux" →
       get_builds (H := gog) w self (platform self) = Ok data).
Proof.
  apply (@calculate_download_size_prints gog py (world_of ∅ (λ _ _ _, Ok ()))
           (λ _, Ok (PDict {[ "download_size" := PInt 1024 ]}))
           (__init__ (command_line "info" None None))
           (set_download_manager v2_Manager
              (set_target_build A
                 (set_builds builds_data
                    (__init__ (command_line "info" None None)))))
           (Ok ())
           [Print (PDict (<["builds" := builds_data]>
                            {[ "download_size" := PInt 1024 ]})) false]).
  vm_compute. reflexivity.
Defined.

End MoreInstances.
